(** * Secure-Flask-App: a shallow embedding of [app.py]

  The application is a Flask program of some 150 lines: one table of
  student records behind SQLAlchemy, one WTForms form, five views and two
  error handlers.  This file embeds it as executable Rocq definitions and
  proves what the views do to the table and what they answer.

  Conventions.
  - A Python [str] is a list of Unicode code points ([pystr]); [py] turns
    a literal into one.
  - The [student] table is a finite map from primary key to row.
  - A view is a computation in a small reader/state/exception monad [M]:
    it reads the environment of the request, updates the [world] (table,
    SQLAlchemy session, flashed notices) and returns or raises.
  - What the source imports and does not define (the email validator,
    bcrypt, the templates) is a parameter of the development; where a
    library behaves differently from one release to another and the source
    pins none, the release is part of the configuration. *)

From Stdlib Require Import NArith Lia String Ascii.
From stdpp Require Import base option list gmap fin_maps strings sorting.

Local Open Scope N_scope.

(** ** Python strings *)

Module PyStr.

(** A character is a code point, a string the list of its characters. *)
Abbreviation pychar := N.
Abbreviation pystr := (list N).

(** [py "Ann"] is the Python literal ["Ann"]. *)
Definition py (s : string) : pystr :=
  List.map N_of_ascii (list_ascii_of_string s).

(** [str.isspace] on one character: CPython's [_PyUnicode_IsWhitespace]. *)
Definition isspace (c : pychar) : bool :=
  ((9 <=? c) && (c <=? 13)) || ((28 <=? c) && (c <=? 32))
  || (c =? 133) || (c =? 160) || (c =? 5760)
  || ((8192 <=? c) && (c <=? 8202))
  || (c =? 8232) || (c =? 8233) || (c =? 8239) || (c =? 8287)
  || (c =? 12288).

(** [s.lstrip()], [s.rstrip()] and [s.strip()] without argument. *)
Fixpoint lstrip (s : pystr) : pystr :=
  match s with
  | [] => []
  | c :: s' => if isspace c then lstrip s' else s
  end.

Definition rstrip (s : pystr) : pystr := rev (lstrip (rev s)).

Definition strip (s : pystr) : pystr := rstrip (lstrip s).

(** Truth value of a string in a Python condition: [if s:]. *)
Definition truthy (s : pystr) : bool :=
  match s with [] => false | _ => true end.

(** The character classes of the pattern [[A-Za-z ]]. *)
Definition is_letter (c : pychar) : bool :=
  ((65 <=? c) && (c <=? 90)) || ((97 <=? c) && (c <=? 122)).

Definition letter_or_space (c : pychar) : bool := is_letter c || (c =? 32).

Definition newline : pychar := 10.
Definition at_sign : pychar := 64.
Definition dot : pychar := 46.

End PyStr.
Export PyStr.


(** ** The model class: one table

<<
class Student(db.Model):
    id = db.Column(db.Integer, primary_key=True)
    fname = db.Column(db.String(100))
    lname = db.Column(db.String(100))
    email = db.Column(db.String(120))
>>
    The primary key is the key of the table map; a row read back from the
    table is the pair of its key and its three text columns.  SQLite does
    not enforce the declared lengths, so the columns hold any text. *)

Module Student.

Record t := mk { fname : pystr; lname : pystr; email : pystr }.

Definition row : Type := N * t.

Definition id (r : row) : N := fst r.

End Student.

Abbreviation table := (gmap N Student.t).

(** ** WTForms: fields, validators and the validation chain *)

Module WTForms.

(** The email validator behind [wtforms.validators.Email] is third-party code.
    It is a parameter here; all that is used of it is that an address it
    accepts contains an [@]. *)
Class EmailValidator := {
  validate_email : pystr -> bool;
  validate_email_at : forall s, validate_email s = true -> at_sign ∈ s
}.

Record field := mk_field { data : option pystr; errors : list string }.

(** What calling a validator does: return, raise [ValidationError] or raise
    [StopValidation]. *)
Inductive outcome :=
| Passed
| ValidationError (message : string)
| StopValidation (message : string).

(** A validator may touch the error list of the field before it raises
    ([DataRequired] empties it), so it returns the field along with the
    outcome. *)
Definition validator := field -> outcome * field.

(** [DataRequired]: the data is truthy and, being a string, not blank. *)
Definition DataRequired : validator := fun f =>
  match data f with
  | Some s =>
      if truthy s && truthy (strip s) then (Passed, f)
      else (StopValidation "This field is required.",
            mk_field (data f) [])
  | None => (StopValidation "This field is required.", mk_field (data f) [])
  end.

(** [Length(min, max)]: [len(field.data)], 0 for missing data, lies in
    the closed range. *)
Definition Length (min max : nat) : validator := fun f =>
  let length := match data f with Some s => List.length s | None => 0%nat end in
  if (min <=? length)%nat && (length <=? max)%nat then (Passed, f)
  else (ValidationError "Field must be between 2 and 50 characters long.", f).

(** [re.match('^[A-Za-z ]*$', s)]: without [re.MULTILINE] the [$] matches
    at the end of the string and also just before a newline that ends it. *)
Fixpoint re_letters_spaces (s : pystr) : bool :=
  match s with
  | [] => true
  | [c] => letter_or_space c || (c =? newline)
  | c :: s' => letter_or_space c && re_letters_spaces s'
  end.

(** [Regexp(regex, message)]: matches [field.data or ""]. *)
Definition Regexp (regex : pystr -> bool) (message : string) : validator :=
  fun f =>
    if regex (default [] (data f)) then (Passed, f)
    else (ValidationError message, f).

(** [Email(message)]: missing data is invalid, a string goes to the
    validator. *)
Definition Email `{EmailValidator} (message : string) : validator := fun f =>
  match data f with
  | Some s => if validate_email s then (Passed, f)
              else (ValidationError message, f)
  | None => (ValidationError message, f)
  end.

(** [Field._run_validation_chain]: a [ValidationError] is recorded and the
    chain goes on, a [StopValidation] is recorded and ends it. *)
Fixpoint run_validation_chain (chain : list validator) (f : field) : field :=
  match chain with
  | [] => f
  | v :: chain' =>
      match v f with
      | (Passed, f') => run_validation_chain chain' f'
      | (ValidationError m, f') =>
          run_validation_chain chain' (mk_field (data f') (errors f' ++ [m]))
      | (StopValidation m, f') => mk_field (data f') (errors f' ++ [m])
      end
  end.

(** [Field.validate]: start from no error, run the chain. *)
Definition validate_field (chain : list validator) (f : field) : field :=
  run_validation_chain chain (mk_field (data f) []).

(** [Field.process]: the data is the object's attribute (or [None]); a value
    submitted under the field's name replaces it. *)
Definition process (obj_data formdata : option pystr) : field :=
  mk_field (match formdata with Some v => Some v | None => obj_data end) [].

End WTForms.
Export WTForms.

(** ** The form

<<
class StudentForm(FlaskForm):
    fname = StringField("First Name", validators=[
        DataRequired(), Length(min=2, max=50),
        Regexp('^[A-Za-z ]*$', message="Only letters allowed")])
    lname = StringField("Last Name", validators=[ ...the same... ])
    email = StringField("Email", validators=[
        DataRequired(), Email(message="Invalid email format")])
>> *)

Module StudentForm.

Record t := mk { fname : field; lname : field; email : field }.

(** The three text inputs of a submitted form, each present or not. *)
Record formdata := mk_formdata {
  fd_fname : option pystr; fd_lname : option pystr; fd_email : option pystr
}.

Definition no_formdata : formdata := mk_formdata None None None.

Definition fname_validators : list validator :=
  [DataRequired; Length 2 50; Regexp re_letters_spaces "Only letters allowed"].

Definition lname_validators : list validator :=
  [DataRequired; Length 2 50; Regexp re_letters_spaces "Only letters allowed"].

Definition email_validators `{EmailValidator} : list validator :=
  [DataRequired; Email "Invalid email format"].

(** [StudentForm()] and [StudentForm(obj=student)]. *)
Definition new (obj : option Student.t) (fd : formdata) : t :=
  mk (process (Student.fname <$> obj) (fd_fname fd))
     (process (Student.lname <$> obj) (fd_lname fd))
     (process (Student.email <$> obj) (fd_email fd)).

(** [form.validate()]: every field is validated, none is skipped because an
    earlier one failed; the form is valid when no field has an error. *)
Definition validate `{EmailValidator} (form : t) : bool * t :=
  let form' := mk (validate_field fname_validators (fname form))
                  (validate_field lname_validators (lname form))
                  (validate_field email_validators (email form)) in
  (match errors (fname form'), errors (lname form'), errors (email form') with
   | [], [], [] => true
   | _, _, _ => false
   end, form').

End StudentForm.

(** ** Requests and responses *)

Module Http.

Inductive http_method := GET | HEAD | POST | PUT | PATCH | DELETE | OPTIONS.

Global Instance http_method_eq_dec : EqDecision http_method.
Proof. solve_decision. Defined.

(** The request path, as the URL map reads it.  [<int:id>] accepts
    a run of digits of any length, so an id is a natural number; [<pwd>]
    accepts one segment that is not empty, so the [pwd] of a path that
    matches is not empty and has no slash; any path that no rule matches
    is [Unmatched]. *)
Inductive url :=
| UrlIndex
| UrlUpdate (id : N)
| UrlDelete (id : N)
| UrlSearch
| UrlHashPassword (pwd : pystr)
| Unmatched.

(** [csrf_valid]: the request carries a token that Flask-WTF's
    [validate_csrf] accepts.  [args_email] is [request.args.get('email')],
    [form] is [request.form]. *)
Record request := mk_request {
  method : http_method;
  path : url;
  args_email : option pystr;
  form : StudentForm.formdata;
  csrf_valid : bool
}.

(** Values handed to a template. *)
Inductive ctxval :=
| CForm (f : StudentForm.t)
| CStudents (l : list Student.row)
| CStudent (s : Student.row).

(** Exceptions that leave a view: the HTTP exceptions of [abort] and of the
    routing, the errors of the database, and the Python errors that the
    libraries raise on the values the views hand them. *)
Inductive exn :=
| HTTPException (code : N)
| SQLAlchemyError (statement : string)
| OverflowError
| TypeError
| ValueError.

Inductive body :=
| Template (name : string) (context : list (string * ctxval))
| Location (target : string)
| Json (result : list Student.row)
| Text (s : pystr)
| DefaultPage
| Traceback (e : exn).

Record response := mk_response { status : N; content : body }.

(** [render_template(name, **context)], with status 200 unless the view
    returns another one beside it. *)
Definition render_template (name : string) (context : list (string * ctxval))
  : response := mk_response 200 (Template name context).

Definition with_status (r : response) (code : N) : response :=
  mk_response code (content r).

(** [redirect(location)]: 302. *)
Definition redirect (location : string) : response :=
  mk_response 302 (Location location).

End Http.
Export Http.

(** ** The world of a request: table, session, flashed notices *)

Module Db.

(** Work a SQLAlchemy session holds until it is flushed. *)
Inductive pending :=
| Add (s : Student.t)
| Del (id : N)
| SetFname (id : N) (v : pystr)
| SetLname (id : N) (v : pystr)
| SetEmail (id : N) (v : pystr).

Record world := mk_world {
  db : table;
  session : list pending;
  flashes : list (string * string)
}.

(** What the surroundings decide for one request: whether the database
    answers reads and writes, and what bcrypt returns (it draws a salt). *)
Record env := mk_env {
  read_fails : bool;
  write_fails : bool;
  generate_password_hash : pystr -> pystr
}.

(** SQLite gives a new row of an [INTEGER PRIMARY KEY] table the largest key
    in use plus one, 1 in an empty table. *)
Definition max_id (t : table) : N :=
  foldr N.max 0 (fst <$> map_to_list t).

Definition next_id (t : table) : N := N.succ (max_id t).

Definition set_fname (v : pystr) (s : Student.t) : Student.t :=
  Student.mk v (Student.lname s) (Student.email s).

Definition set_lname (v : pystr) (s : Student.t) : Student.t :=
  Student.mk (Student.fname s) v (Student.email s).

Definition set_email (v : pystr) (s : Student.t) : Student.t :=
  Student.mk (Student.fname s) (Student.lname s) v.

(** One pending change written to the table: INSERT, DELETE or UPDATE of
    one column of the row with that key. *)
Definition apply_pending (t : table) (p : pending) : table :=
  match p with
  | Add s => <[next_id t := s]> t
  | Del id => delete id t
  | SetFname id v => alter (set_fname v) id t
  | SetLname id v => alter (set_lname v) id t
  | SetEmail id v => alter (set_email v) id t
  end.

Definition flush (ps : list pending) (t : table) : table :=
  foldl apply_pending t ps.

(** The order of a table scan: by key. *)
Definition by_id (r1 r2 : Student.row) : Prop := fst r1 <= fst r2.

Global Instance by_id_dec : RelDecision by_id.
Proof. intros r1 r2. unfold by_id. apply _. Defined.

(** [SELECT * FROM student]: the rows, as SQLite scans the table, by
    ascending key. *)
Definition select_all (t : table) : list Student.row :=
  merge_sort by_id (map_to_list t).

(** The integers SQLite stores, and the sqlite3 driver binds to a statement:
    64 bits with a sign.  The ids of a URL are not negative. *)
Definition sqlite_integer (id : N) : bool := id <? 2 ^ 63.

(** [SELECT * FROM student WHERE email = :email] with the value bound:
    the comparison is equality of the two texts. *)
Definition select_by_email (e : pystr) (t : table) : list Student.row :=
  List.filter (fun r => bool_decide (Student.email (snd r) = e)) (select_all t).

End Db.
Export Db.

(** ** The monad of views *)

Module Monad.

Inductive result (A : Type) :=
| Ok (a : A)
| Raise (e : exn).
Arguments Ok {A} a.
Arguments Raise {A} e.

Definition M (A : Type) : Type := env -> world -> result A * world.

Definition ret {A} (a : A) : M A := fun _ w => (Ok a, w).

Definition bind {A B} (m : M A) (k : A -> M B) : M B := fun e w =>
  match m e w with
  | (Ok a, w') => k a e w'
  | (Raise x, w') => (Raise x, w')
  end.

Definition raise {A} (x : exn) : M A := fun _ w => (Raise x, w).

(** With these instances stdpp's [x ← m; k] and [m;; k] are the sequencing
    of statements of a view. *)
Global Instance M_ret : MRet M := @ret.
Global Instance M_bind : MBind M := fun A B k m => bind m k.

End Monad.
Export Monad.

(** ** Flask-SQLAlchemy: queries and the session *)

Module Orm.

(** Every statement sent to the database raises when the database fails. *)
Definition reading {A} (statement : string) (f : table -> A) : M A :=
  fun e w =>
    if read_fails e then (Raise (SQLAlchemyError statement), w)
    else (Ok (f (db w)), w).

(** [Student.query.all()] *)
Definition query_all : M (list Student.row) :=
  reading "SELECT * FROM student" select_all.

(** [Student.query.get(id)].  The sqlite3 driver cannot bind an id that is
    not a SQLite integer and raises [OverflowError] in place of running the
    statement.  No row of a SQLite table has such a key: looking the id up
    and raising when it is absent and out of range, as here, raises on the
    same requests as the driver on every table SQLite can hold. *)
Definition query_get (id : N) : M (option Student.row) :=
  found ← reading "SELECT * FROM student WHERE id = ?"
                  (fun t => (fun s => (id, s)) <$> t !! id);
  match found with
  | Some r => mret (Some r)
  | None => if sqlite_integer id then mret None else raise OverflowError
  end.

(** [Student.query.get_or_404(id)]: [abort(404)] when there is no row. *)
Definition get_or_404 (id : N) : M Student.row :=
  r ← query_get id;
  match r with
  | Some s => mret s
  | None => raise (HTTPException 404)
  end.

(** [db.session.execute(text("SELECT * FROM student WHERE email=:email"),
    {"email": email}).fetchall()] *)
Definition execute_select_by_email (email : pystr) : M (list Student.row) :=
  reading "SELECT * FROM student WHERE email=:email" (select_by_email email).

Definition session_push (p : pending) : M unit := fun _ w =>
  (Ok tt, mk_world (db w) (session w ++ [p]) (flashes w)).

(** [db.session.add(obj)], [db.session.delete(obj)] and the assignment to a
    column attribute of a loaded object. *)
Definition session_add (s : Student.t) : M unit := session_push (Add s).
Definition session_delete (r : Student.row) : M unit :=
  session_push (Del (Student.id r)).
Definition setattr_fname (r : Student.row) (v : pystr) : M unit :=
  session_push (SetFname (Student.id r) v).
Definition setattr_lname (r : Student.row) (v : pystr) : M unit :=
  session_push (SetLname (Student.id r) v).
Definition setattr_email (r : Student.row) (v : pystr) : M unit :=
  session_push (SetEmail (Student.id r) v).

(** [db.session.commit()]: flush the pending work and commit, as one
    transaction; when the database fails nothing of it reaches the table and
    the session keeps its work until it is rolled back. *)
Definition session_commit : M unit := fun e w =>
  if write_fails e then (Raise (SQLAlchemyError "COMMIT"), w)
  else (Ok tt, mk_world (flush (session w) (db w)) [] (flashes w)).

(** [db.session.rollback()] *)
Definition session_rollback : M unit := fun _ w =>
  (Ok tt, mk_world (db w) [] (flashes w)).

(** [flash(message, category)] *)
Definition flash (message category : string) : M unit := fun _ w =>
  (Ok tt, mk_world (db w) (session w) (flashes w ++ [(category, message)])).

End Orm.
Export Orm.

(** ** The application: views, error handlers, dispatch *)

Module App.

(** How the application is deployed.  [debug] is [app.debug].  The other two
    fields are the releases of two libraries that the source does not pin
    and whose behaviour the views depend on:
    - [rows_are_mappings]: a result row converts with [dict(row)], as the
      [RowProxy] of SQLAlchemy up to 1.3 does; the [Row] of its releases
      2.x is a tuple, and [dict] of it raises [TypeError];
    - [bcrypt_rejects_long]: bcrypt refuses a password of more than 72
      bytes with [ValueError], as its releases from 5.0 do; earlier ones
      cut the password at 72 bytes. *)
Record config := mk_config {
  debug : bool;
  rows_are_mappings : bool;
  bcrypt_rejects_long : bool
}.

(** [if __name__ == '__main__': app.run(debug=True)], with the current
    releases of the libraries. *)
Definition main : config := mk_config true false true.

(** The module imported by a WSGI server: [app.debug] keeps its default. *)
Definition imported : config := mk_config false false true.

(** The same, with the older releases of the libraries. *)
Definition imported_legacy : config := mk_config false true false.

(** [dict(r)] of a result row. *)
Definition dict (cfg : config) (r : Student.row) : M Student.row :=
  if rows_are_mappings cfg then mret r else raise TypeError.

(** A list comprehension [[f(x) for x in l]]. *)
Fixpoint comprehension {A B} (f : A -> M B) (l : list A) : M (list B) :=
  match l with
  | [] => mret []
  | x :: l' => y ← f x; ys ← comprehension f l'; mret (y :: ys)
  end.

(** The length of [s.encode('utf-8')]. *)
Definition utf8_bytes (c : pychar) : nat :=
  if c <? 128 then 1%nat else if c <? 2048 then 2%nat
  else if c <? 65536 then 3%nat else 4%nat.

Definition utf8_length (s : pystr) : nat :=
  foldr (fun c n => (utf8_bytes c + n)%nat) 0%nat s.

(** [bcrypt.generate_password_hash(pwd).decode('utf-8')]: Flask-Bcrypt
    raises [ValueError] on an empty password, bcrypt on one it refuses for
    its length; otherwise the hash is the environment's (bcrypt draws a
    salt). *)
Definition bcrypt_generate_password_hash (cfg : config) (pwd : pystr)
  : M pystr := fun e w =>
  if negb (truthy pwd) then (Raise ValueError, w)
  else if bcrypt_rejects_long cfg && (72 <? utf8_length pwd)%nat
  then (Raise ValueError, w)
  else (Ok (generate_password_hash e pwd), w).

(** [FlaskForm.is_submitted]: the request method is one that submits. *)
Definition is_submitted (req : request) : bool :=
  bool_decide (method req ∈ [POST; PUT; PATCH; DELETE]).

(** Flask-WTF binds [request.form] to the form when the request is a
    submission, nothing otherwise. *)
Definition bind_form (req : request) (obj : option Student.t) : StudentForm.t :=
  StudentForm.new obj
    (if is_submitted req then form req else StudentForm.no_formdata).

(** [form.validate_on_submit()]: a submission whose CSRF token and fields
    are valid.  The errors found stay on the form. *)
Definition validate_on_submit `{EmailValidator}
    (req : request) (f : StudentForm.t) : bool * StudentForm.t :=
  if is_submitted req then
    let '(ok, f') := StudentForm.validate f in (csrf_valid req && ok, f')
  else (false, f).

(** [field.data.strip()].  The views call it on validated fields only, whose
    data is a string. *)
Definition data_strip (f : field) : pystr := strip (default [] (data f)).

(**
<<
@app.route('/', methods=['GET', 'POST'])
def index():
    form = StudentForm()
    if form.validate_on_submit():
        new_student = Student(fname=form.fname.data.strip(),
                              lname=form.lname.data.strip(),
                              email=form.email.data.strip())
        db.session.add(new_student)
        db.session.commit()
        flash("Student added successfully and securely!", "success")
        return redirect('/')
    students = Student.query.all()
    return render_template('index.html', form=form, students=students)
>> *)
Definition index `{EmailValidator} (req : request) : M response :=
  let form := bind_form req None in
  let '(valid, form) := validate_on_submit req form in
  if valid then
    let new_student :=
      Student.mk (data_strip (StudentForm.fname form))
                 (data_strip (StudentForm.lname form))
                 (data_strip (StudentForm.email form)) in
    session_add new_student;;
    session_commit;;
    flash "Student added successfully and securely!" "success";;
    mret (redirect "/")
  else
    students ← query_all;
    mret (render_template "index.html"
            [("form", CForm form); ("students", CStudents students)]).

(**
<<
@app.route('/update/<int:id>', methods=['GET', 'POST'])
def update(id):
    student = Student.query.get_or_404(id)
    form = StudentForm(obj=student)
    if form.validate_on_submit():
        student.fname = form.fname.data.strip()
        student.lname = form.lname.data.strip()
        student.email = form.email.data.strip()
        db.session.commit()
        flash("Record updated securely!", "info")
        return redirect('/')
    return render_template('update.html', form=form, student=student)
>> *)
Definition update `{EmailValidator} (id : N) (req : request) : M response :=
  student ← get_or_404 id;
  let form := bind_form req (Some (snd student)) in
  let '(valid, form) := validate_on_submit req form in
  if valid then
    setattr_fname student (data_strip (StudentForm.fname form));;
    setattr_lname student (data_strip (StudentForm.lname form));;
    setattr_email student (data_strip (StudentForm.email form));;
    session_commit;;
    flash "Record updated securely!" "info";;
    mret (redirect "/")
  else
    mret (render_template "update.html"
            [("form", CForm form); ("student", CStudent student)]).

(**
<<
@app.route('/delete/<int:id>')
def delete(id):
    student = Student.query.get_or_404(id)
    db.session.delete(student)
    db.session.commit()
    flash("Student deleted securely!", "danger")
    return redirect('/')
>> *)
Definition delete (id : N) : M response :=
  student ← get_or_404 id;
  session_delete student;;
  session_commit;;
  flash "Student deleted securely!" "danger";;
  mret (redirect "/").

(**
<<
@app.route('/search')
def search():
    email = request.args.get('email', '')
    if email:
        result = db.session.execute(
            text("SELECT * FROM student WHERE email=:email"),
            {"email": email}).fetchall()
        return {"result": [dict(r) for r in result]}
    return {"result": []}
>> *)
Definition search (cfg : config) (req : request) : M response :=
  let email := default [] (args_email req) in
  if truthy email then
    result ← execute_select_by_email email;
    dicts ← comprehension (dict cfg) result;
    mret (mk_response 200 (Json dicts))
  else
    mret (mk_response 200 (Json [])).

(**
<<
@app.route('/hash_password/<pwd>')
def hash_password(pwd):
    hashed = bcrypt.generate_password_hash(pwd).decode('utf-8')
    return f"Original: {pwd}<br>Hashed: {hashed}"
>> *)
Definition hash_password (cfg : config) (pwd : pystr) : M response :=
  hashed ← bcrypt_generate_password_hash cfg pwd;
  mret (mk_response 200
          (Text (py "Original: " ++ pwd ++ py "<br>Hashed: " ++ hashed))).

(**
<<
@app.errorhandler(404)
def not_found_error(error):
    return render_template('404.html'), 404
>> *)
Definition not_found_error (error : exn) : M response :=
  mret (with_status (render_template "404.html" []) 404).

(**
<<
@app.errorhandler(500)
def internal_error(error):
    db.session.rollback()
    return render_template('500.html'), 500
>> *)
Definition internal_error (error : exn) : M response :=
  session_rollback;;
  mret (with_status (render_template "500.html" []) 500).

(** The URL map: the methods of each rule.  Flask adds HEAD to a rule that
    has GET, and OPTIONS to every rule; a route without [methods=] answers
    GET only. *)
Definition rule_methods (u : url) : list http_method :=
  match u with
  | UrlIndex | UrlUpdate _ => [GET; POST; HEAD; OPTIONS]
  | UrlDelete _ | UrlSearch | UrlHashPassword _ => [GET; HEAD; OPTIONS]
  | Unmatched => []
  end.

Definition view `{EmailValidator} (cfg : config) (req : request)
  : M response :=
  match path req with
  | UrlIndex => index req
  | UrlUpdate id => update id req
  | UrlDelete id => delete id
  | UrlSearch => search cfg req
  | UrlHashPassword pwd => hash_password cfg pwd
  | Unmatched => raise (HTTPException 404)
  end.

(** [CSRFProtect(app)] registers a [before_request] function: a request with
    a matched rule and one of the methods POST, PUT, PATCH, DELETE must carry
    a valid token, or it is refused with 400 before the view runs. *)
Definition csrf_protect (req : request) : M unit :=
  if is_submitted req && negb (csrf_valid req)
  then raise (HTTPException 400) else mret tt.

(** [Flask.full_dispatch_request]: match the URL (404, 405), run the
    [before_request] functions, answer OPTIONS, call the view. *)
Definition full_dispatch_request `{EmailValidator} (cfg : config)
    (req : request) : M response :=
  match path req with
  | Unmatched => raise (HTTPException 404)
  | _ =>
      if bool_decide (method req ∈ rule_methods (path req)) then
        csrf_protect req;;
        if bool_decide (method req = OPTIONS)
        then mret (mk_response 200 DefaultPage)
        else view cfg req
      else raise (HTTPException 405)
  end.

(** [Flask.handle_user_exception] and [Flask.handle_exception].  An HTTP
    exception goes to the handler registered for its code, or is its own
    default page.  Any other exception is an internal error: in debug mode
    ([PROPAGATE_EXCEPTIONS] defaults to [app.debug]) it is raised again and
    Werkzeug's debugger answers with the traceback; otherwise the handler
    registered for 500 runs. *)
Definition handle_exception (cfg : config) (x : exn) : M response :=
  match x with
  | HTTPException code =>
      if code =? 404 then not_found_error x
      else mret (mk_response code DefaultPage)
  | _ =>
      if debug cfg then mret (mk_response 500 (Traceback x))
      else internal_error x
  end.

(** [Flask.wsgi_app]: the response to a request and the world it leaves,
    before the application context is torn down. *)
Definition wsgi_app `{EmailValidator} (cfg : config) (req : request)
    (e : env) (w : world) : response * world :=
  match full_dispatch_request cfg req e w with
  | (Ok r, w') => (r, w')
  | (Raise x, w') =>
      match handle_exception cfg x e w' with
      | (Ok r, w'') => (r, w'')
      | (Raise _, w'') => (mk_response 500 DefaultPage, w'')
      end
  end.

(** Flask-SQLAlchemy's teardown: [db.session.remove()] discards whatever
    the session still holds. *)
Definition shutdown_session (w : world) : world :=
  mk_world (db w) [] (flashes w).

(** The scoped session of a request starts empty. *)
Definition new_session (w : world) : world :=
  mk_world (db w) [] (flashes w).

(** One request served from start to end: the session is new with the
    request and removed after it. *)
Definition serve `{EmailValidator} (cfg : config) (req : request)
    (e : env) (w : world) : response * world :=
  let '(r, w') := wsgi_app cfg req e (new_session w) in
  (r, shutdown_session w').

(** The world after [db.create_all()] on a new database file. *)
Definition initial : world := mk_world ∅ [] [].

(** The worlds the application can be in between two requests. *)
Inductive reachable `{EmailValidator} (cfg : config) : world -> Prop :=
| reachable_initial : reachable cfg initial
| reachable_serve w req e :
    reachable cfg w -> reachable cfg (snd (serve cfg req e w)).

End App.

(** ** A concrete email validator *)

Module EmailShape.

(** [split_at c s]: the parts of [s] before and after the first [c]. *)
Fixpoint split_at (c : pychar) (s : pystr) : option (pystr * pystr) :=
  match s with
  | [] => None
  | x :: s' =>
      if x =? c then Some ([], s')
      else match split_at c s' with
           | Some (l, r) => Some (x :: l, r)
           | None => None
           end
  end.

(** Modelled from the spec: the package behind [wtforms.validators.Email] is
    not in the source.  Section 4.2 asks for "a standard email-address shape
    (local-part "@" domain with at least one dot)": one [@], something before
    it, a dot after it. *)
Definition email_shape (s : pystr) : bool :=
  match split_at at_sign s with
  | Some (local, domain) =>
      truthy local && bool_decide (dot ∈ domain)
      && negb (bool_decide (at_sign ∈ domain))
  | None => false
  end.

Lemma split_at_elem c s l r : split_at c s = Some (l, r) -> c ∈ s.
Proof.
  revert l r. induction s as [|x s IH]; intros l r; simpl; [discriminate|].
  destruct (N.eqb_spec x c) as [->|Hne].
  - intros _. apply list_elem_of_here.
  - destruct (split_at c s) as [[l' r']|] eqn:E; [|discriminate].
    intros _. apply list_elem_of_further. eapply IH. reflexivity.
Qed.

Lemma email_shape_at s : email_shape s = true -> at_sign ∈ s.
Proof.
  unfold email_shape.
  destruct (split_at at_sign s) as [[l r]|] eqn:E; [|discriminate].
  intros _. eapply split_at_elem, E.
Qed.

#[export] Instance spec_validator : EmailValidator :=
  {| validate_email := email_shape; validate_email_at := email_shape_at |}.

End EmailShape.
Export EmailShape.

(** ** The field rules, and the requests the theorems speak of *)

Module Rules.

(** The rule of the data model for a name: 2 to 50 characters, letters and
    spaces only. *)
Definition name_rule (s : pystr) : bool :=
  (2 <=? List.length s)%nat && (List.length s <=? 50)%nat
  && forallb letter_or_space s.

(** A string with something else than whitespace in it. *)
Definition not_blank (s : pystr) : bool := truthy (strip s).

(** What holds of a name once it is trimmed and stored. *)
Definition stored_name (s : pystr) : Prop :=
  (1 <= List.length s <= 50)%nat /\ Forall (fun c => letter_or_space c = true) s.

(** What the validators of a name field let through: [DataRequired],
    [Length(min=2, max=50)] and the pattern, all on the data as submitted. *)
Definition name_passes (d : option pystr) : bool :=
  match d with
  | Some s =>
      not_blank s
      && ((2 <=? List.length s)%nat && (List.length s <=? 50)%nat)
      && re_letters_spaces s
  | None => false
  end.

(** What the validators of the email field let through. *)
Definition email_passes `{EmailValidator} (d : option pystr) : bool :=
  match d with
  | Some s => not_blank s && validate_email s
  | None => false
  end.

(** The verdict of [form.validate()] on the data of the three fields. *)
Definition form_passes `{EmailValidator} (f : StudentForm.t) : bool :=
  name_passes (data (StudentForm.fname f))
  && name_passes (data (StudentForm.lname f))
  && email_passes (data (StudentForm.email f)).

(** A name the form turns down whatever the reading of the pattern's [$]:
    missing, blank, too short, too long, or with a character that is neither
    letter nor space somewhere else than as the final newline. *)
Definition name_violation (d : option pystr) : Prop :=
  match d with
  | None => True
  | Some s =>
      not_blank s = false
      \/ (List.length s < 2)%nat
      \/ (50 < List.length s)%nat
      \/ exists (i : nat) c, s !! i = Some c /\ letter_or_space c = false
                     /\ ~ (c = newline /\ S i = List.length s)
  end.

(** An email the form turns down: missing, blank, or refused by the
    validator. *)
Definition email_violation `{EmailValidator} (d : option pystr) : Prop :=
  match d with
  | None => True
  | Some s => not_blank s = false \/ validate_email s = false
  end.

(** A submitted form with all three fields. *)
Definition filled (a b c : pystr) : StudentForm.formdata :=
  StudentForm.mk_formdata (Some a) (Some b) (Some c).

(** [GET u], with no query string. *)
Definition get (u : url) : request :=
  mk_request GET u None StudentForm.no_formdata false.

(** [POST u] with a form; [token] tells whether its CSRF token is valid. *)
Definition post (u : url) (fd : StudentForm.formdata) (token : bool)
  : request := mk_request POST u None fd token.

(** [GET /search?email=e], or [GET /search] for [None]. *)
Definition get_search (e : option pystr) : request :=
  mk_request GET UrlSearch e StudentForm.no_formdata false.

(** A database that answers. *)
Definition healthy : env := mk_env false false (fun pwd => pwd).

(** The data a field of the update form ends up with: the value submitted,
    or the record's when the submission leaves the field out. *)
Definition submitted (current : pystr) (d : option pystr) : pystr :=
  default current d.

(** The row the create view adds and the columns the update view assigns:
    the trimmed data of the bound form. *)
Definition trimmed (f : StudentForm.t) : Student.t :=
  Student.mk (App.data_strip (StudentForm.fname f))
             (App.data_strip (StudentForm.lname f))
             (App.data_strip (StudentForm.email f)).

(** The pending work of the update view: one assignment per column. *)
Definition assignments (id : N) (s : Student.t) : list pending :=
  [SetFname id (Student.fname s); SetLname id (Student.lname s);
   SetEmail id (Student.email s)].

(** What one request can do to the table: nothing, insert a row under the
    next key, replace the three columns of a row, or delete a row; what is
    written is trimmed data that passed the form. *)
Inductive db_step `{EmailValidator} (t : table) : table -> Prop :=
| step_same : db_step t t
| step_insert a b c :
    name_passes (Some a) = true -> name_passes (Some b) = true ->
    email_passes (Some c) = true ->
    db_step t (<[next_id t := Student.mk (strip a) (strip b) (strip c)]> t)
| step_replace id r a b c :
    t !! id = Some r ->
    name_passes (Some a) = true -> name_passes (Some b) = true ->
    email_passes (Some c) = true ->
    db_step t (<[id := Student.mk (strip a) (strip b) (strip c)]> t)
| step_delete id r :
    t !! id = Some r -> db_step t (base.delete id t).

(** What holds of every row the application wrote: names of 1 to 50
    letters and spaces, and an email that is the trimmed form of an address
    the validator accepted. *)
Definition stored_ok `{EmailValidator} (s : Student.t) : Prop :=
  stored_name (Student.fname s) /\ stored_name (Student.lname s)
  /\ Student.email s <> []
  /\ exists raw, validate_email raw = true /\ Student.email s = strip raw.

Definition table_ok `{EmailValidator} (t : table) : Prop :=
  forall id s, t !! id = Some s -> stored_ok s.

(** The pages of the two error handlers. *)
Definition page_404 : response :=
  with_status (render_template "404.html" []) 404.

Definition page_500 : response :=
  with_status (render_template "500.html" []) 500.

(** The world a request leaves when it changes nothing. *)
Definition untouched (w : world) : world := mk_world (db w) [] (flashes w).

(** The page of an internal failure: the traceback under the debugger, the
    500 template otherwise. *)
Definition failure_page (cfg : App.config) (stmt : string) : response :=
  if App.debug cfg then mk_response 500 (Traceback (SQLAlchemyError stmt))
  else page_500.

(** The same, for any exception that is not an HTTP exception. *)
Definition error_page (cfg : App.config) (x : exn) : response :=
  if App.debug cfg then mk_response 500 (Traceback x) else page_500.

(** The notices of the create and update views. *)
Definition success_notice : string * string :=
  ("success", "Student added successfully and securely!").

Definition update_notice : string * string :=
  ("info", "Record updated securely!").

Definition delete_notice : string * string :=
  ("danger", "Student deleted securely!").

(** What serving one request comes to: a response other than the redirect,
    with the world as it was; or the redirect of one of the three views that
    write, with the row created, replaced or deleted and that view's notice
    added. *)
Inductive effect `{EmailValidator} (req : request) (e : env) (w : world)
  : response * world -> Prop :=
| effect_none r :
    r <> redirect "/" -> effect req e w (r, untouched w)
| effect_create :
    method req = POST -> path req = UrlIndex -> csrf_valid req = true ->
    form_passes (StudentForm.new None (form req)) = true ->
    write_fails e = false ->
    effect req e w
      (redirect "/",
       mk_world (<[next_id (db w) :=
                     trimmed (StudentForm.new None (form req))]> (db w))
                [] (flashes w ++ [success_notice]))
| effect_update id r :
    method req = POST -> path req = UrlUpdate id -> csrf_valid req = true ->
    db w !! id = Some r ->
    form_passes (StudentForm.new (Some r) (form req)) = true ->
    read_fails e = false -> write_fails e = false ->
    effect req e w
      (redirect "/",
       mk_world (<[id := trimmed (StudentForm.new (Some r) (form req))]> (db w))
                [] (flashes w ++ [update_notice]))
| effect_delete id r :
    method req = GET \/ method req = HEAD -> path req = UrlDelete id ->
    db w !! id = Some r ->
    read_fails e = false -> write_fails e = false ->
    effect req e w
      (redirect "/",
       mk_world (base.delete id (db w)) [] (flashes w ++ [delete_notice])).

(** The requests that reach a statement that writes: a POST with a valid
    token to the create or the update rule, a GET or HEAD to the delete
    rule. *)
Definition may_write (req : request) : bool :=
  match method req, path req with
  | POST, UrlIndex | POST, UrlUpdate _ => csrf_valid req
  | GET, UrlDelete _ | HEAD, UrlDelete _ => true
  | _, _ => false
  end.

(** A field with no whitespace at either end. *)
Definition is_trimmed (s : pystr) : Prop := strip s = s.

(** The scenario of the specification: Ann Lee, created on a new
    database. *)
Definition ann : StudentForm.formdata :=
  filled (py "Ann") (py "Lee") (py "ann@x.com").

Definition ann_world : world :=
  snd (App.serve App.imported (post UrlIndex ann true) healthy App.initial).

End Rules.
Export Rules.

(** * Theorems *)

(** ** Trimming *)

Section Strip.

Implicit Types s t : pystr.

Lemma lstrip_suffix s : exists p, s = p ++ lstrip s.
Proof.
  induction s as [|c s [p IH]]; simpl.
  - by exists [].
  - destruct (isspace c).
    + exists (c :: p). simpl. by f_equal.
    + by exists [].
Qed.

Lemma rstrip_prefix s : exists q, s = rstrip s ++ q.
Proof.
  unfold rstrip. destruct (lstrip_suffix (rev s)) as [p Hp].
  exists (rev p). rewrite <- rev_app_distr, <- Hp. by rewrite rev_involutive.
Qed.

Lemma strip_infix s : exists p q, s = p ++ strip s ++ q.
Proof.
  unfold strip. destruct (lstrip_suffix s) as [p Hp].
  destruct (rstrip_prefix (lstrip s)) as [q Hq].
  exists p, q. by rewrite <- Hq.
Qed.

Lemma strip_length s : (List.length (strip s) <= List.length s)%nat.
Proof.
  destruct (strip_infix s) as (p & q & H).
  rewrite H at 2. rewrite !length_app. lia.
Qed.

Lemma strip_Forall (P : pychar -> Prop) s : Forall P s -> Forall P (strip s).
Proof.
  destruct (strip_infix s) as (p & q & H). intros HP. rewrite H in HP.
  by apply Forall_app in HP as [_ [HP _]%Forall_app].
Qed.

Lemma rstrip_snoc s c :
  rstrip (s ++ [c]) = if isspace c then rstrip s else s ++ [c].
Proof.
  unfold rstrip. rewrite rev_app_distr. simpl.
  destruct (isspace c); [done|]. simpl. by rewrite rev_involutive.
Qed.

Lemma lstrip_snoc_space s c :
  isspace c = true ->
  lstrip (s ++ [c]) = match lstrip s with [] => [] | _ => lstrip s ++ [c] end.
Proof.
  intros Hc. induction s as [|x s IH]; simpl.
  - by rewrite Hc.
  - destruct (isspace x); [done|]. done.
Qed.

(** Trimming drops a final whitespace character. *)
Lemma strip_snoc_space s c : isspace c = true -> strip (s ++ [c]) = strip s.
Proof.
  intros Hc. unfold strip. rewrite lstrip_snoc_space by done.
  destruct (lstrip s) as [|x l] eqn:E; [done|].
  rewrite rstrip_snoc. by rewrite Hc.
Qed.

Lemma not_blank_length s : not_blank s = true -> (1 <= List.length (strip s))%nat.
Proof. unfold not_blank. destruct (strip s); simpl; [done|lia]. Qed.

Lemma not_blank_truthy s : not_blank s = true -> truthy s = true.
Proof.
  intros H%not_blank_length. pose proof (strip_length s).
  destruct s; simpl in *; [lia|done].
Qed.



End Strip.

(** ** The validators of the form *)

Section Validators.

Context `{EmailValidator}.

(** A case of a chain, once its validators are decided. *)
Local Ltac chain_case :=
  split; [reflexivity | split; intro; (reflexivity || discriminate)].
Lemma DataRequired_passes s :
  truthy s && truthy (strip s) = not_blank s.
Proof.
  unfold not_blank. destruct (truthy (strip s)) eqn:E.
  - by rewrite (not_blank_truthy s E).
  - by rewrite andb_false_r.
Qed.

(** The chain of a name field keeps the data and leaves no error exactly on
    the names that pass the three validators. *)
Lemma name_chain f :
  let f' := validate_field StudentForm.fname_validators f in
  data f' = data f /\ (errors f' = [] <-> name_passes (data f) = true).
Proof.
  destruct f as [[s|] es];
    cbv beta iota zeta delta
      [data errors default run_validation_chain DataRequired Length Regexp
       validate_field StudentForm.fname_validators name_passes id];
    [|chain_case].
  rewrite DataRequired_passes.
  destruct (not_blank s); [cbv beta iota zeta|chain_case].
  generalize ((2 <=? List.length s)%nat && (List.length s <=? 50)%nat).
  intros in_range.
  destruct in_range; cbv beta iota zeta;
    destruct (re_letters_spaces s); chain_case.
Qed.

Lemma email_chain f :
  let f' := validate_field StudentForm.email_validators f in
  data f' = data f /\ (errors f' = [] <-> email_passes (data f) = true).
Proof.
  destruct f as [[s|] es];
    cbv beta iota zeta delta
      [data errors default run_validation_chain DataRequired Email
       validate_field StudentForm.email_validators email_passes];
    [|chain_case].
  rewrite DataRequired_passes.
  destruct (not_blank s); [cbv beta iota zeta|chain_case].
  destruct (validate_email s); chain_case.
Qed.


(** [form.validate()]: the verdict, and the form it leaves. *)
Lemma validate_spec (f : StudentForm.t) :
  exists f',
    StudentForm.validate f = (form_passes f, f')
    /\ data (StudentForm.fname f') = data (StudentForm.fname f)
    /\ data (StudentForm.lname f') = data (StudentForm.lname f)
    /\ data (StudentForm.email f') = data (StudentForm.email f)
    /\ (errors (StudentForm.fname f') = []
        <-> name_passes (data (StudentForm.fname f)) = true)
    /\ (errors (StudentForm.lname f') = []
        <-> name_passes (data (StudentForm.lname f)) = true)
    /\ (errors (StudentForm.email f') = []
        <-> email_passes (data (StudentForm.email f)) = true).
Proof.
  unfold StudentForm.validate, form_passes. cbv zeta.
  destruct (name_chain (StudentForm.fname f)) as [D1 E1].
  destruct (name_chain (StudentForm.lname f)) as [D2 E2].
  destruct (email_chain (StudentForm.email f)) as [D3 E3].
  cbv zeta in *.
  exists (StudentForm.mk
            (validate_field StudentForm.fname_validators (StudentForm.fname f))
            (validate_field StudentForm.lname_validators (StudentForm.lname f))
            (validate_field StudentForm.email_validators (StudentForm.email f))).
  cbn [StudentForm.fname StudentForm.lname StudentForm.email].
  split; [|split_and!; assumption].
  f_equal.
  change StudentForm.lname_validators with StudentForm.fname_validators.
  destruct (errors (validate_field _ (StudentForm.fname f)));
    destruct (name_passes (data (StudentForm.fname f)));
    try (by destruct E1 as [E1a E1b]; (specialize (E1a eq_refl) || specialize (E1b eq_refl)));
  destruct (errors (validate_field _ (StudentForm.lname f)));
    destruct (name_passes (data (StudentForm.lname f)));
    try (by destruct E2 as [E2a E2b]; (specialize (E2a eq_refl) || specialize (E2b eq_refl)));
  destruct (errors (validate_field _ (StudentForm.email f)));
    destruct (email_passes (data (StudentForm.email f)));
    try (by destruct E3 as [E3a E3b]; (specialize (E3a eq_refl) || specialize (E3b eq_refl)));
  reflexivity.
Qed.

End Validators.

(** ** The table and the session *)

Section Table.

Implicit Types t : table.




Lemma flush_add t s : flush [Add s] t = <[next_id t := s]> t.
Proof. reflexivity. Qed.

Lemma flush_del t id : flush [Del id] t = delete id t.
Proof. reflexivity. Qed.

(** The three assignments of the update view, flushed, replace the row. *)
Lemma flush_set t id r a b c :
  t !! id = Some r ->
  flush [SetFname id a; SetLname id b; SetEmail id c] t
  = <[id := Student.mk a b c]> t.
Proof.
  intros Hr. unfold flush. simpl. apply map_eq. intros k.
  destruct (decide (k = id)) as [->|Hne].
  - rewrite lookup_insert_eq, !lookup_alter_eq, Hr. reflexivity.
  - rewrite lookup_insert_ne, !lookup_alter_ne by done. reflexivity.
Qed.

(** The rows of a scan are the rows of the table, each once. *)
Lemma select_all_perm t : select_all t ≡ₚ map_to_list t.
Proof. apply merge_sort_Permutation. Qed.

Lemma select_all_spec t id s : (id, s) ∈ select_all t <-> t !! id = Some s.
Proof. rewrite select_all_perm. apply elem_of_map_to_list. Qed.

Lemma select_all_NoDup t : NoDup (select_all t).
Proof. rewrite select_all_perm. apply NoDup_map_to_list. Qed.

Lemma select_all_length t : List.length (select_all t) = size t.
Proof. rewrite select_all_perm. apply length_map_to_list. Qed.

(** The scan is by ascending id. *)
Lemma select_all_sorted t : StronglySorted by_id (select_all t).
Proof.
  apply StronglySorted_merge_sort.
  - intros x y z. unfold by_id. lia.
  - intros x y. unfold by_id. lia.
Qed.

Lemma select_by_email_spec t e id s :
  (id, s) ∈ select_by_email e t <-> t !! id = Some s /\ Student.email s = e.
Proof.
  unfold select_by_email. rewrite list_elem_of_In, filter_In.
  rewrite <- list_elem_of_In, select_all_spec. simpl.
  rewrite bool_decide_eq_true. tauto.
Qed.

Lemma select_by_email_NoDup t e : NoDup (select_by_email e t).
Proof.
  unfold select_by_email. apply NoDup_ListNoDup, List.NoDup_filter.
  apply NoDup_ListNoDup, select_all_NoDup.
Qed.

End Table.

(** ** Running a request *)

Section Runs.

Context `{EmailValidator}.

Lemma is_submitted_post u fd tok : App.is_submitted (post u fd tok) = true.
Proof. reflexivity. Qed.


(** The data of a bound field. *)
Lemma new_data obj fd :
  data (StudentForm.fname (StudentForm.new obj fd))
  = match StudentForm.fd_fname fd with
    | Some v => Some v | None => Student.fname <$> obj end
  /\ data (StudentForm.lname (StudentForm.new obj fd))
  = match StudentForm.fd_lname fd with
    | Some v => Some v | None => Student.lname <$> obj end
  /\ data (StudentForm.email (StudentForm.new obj fd))
  = match StudentForm.fd_email fd with
    | Some v => Some v | None => Student.email <$> obj end.
Proof. by repeat split. Qed.

End Runs.

(** Decide the conditions on methods that a request with a known method
    leaves in the goal. *)
Ltac decide_methods :=
  repeat match goal with
  | |- context [bool_decide ?P] =>
      let b := eval vm_compute in (bool_decide P) in
      change (bool_decide P) with b
  end.

(** Unfold the application down to the monad, then the monad. *)
Ltac unfold_app :=
  unfold App.serve, App.wsgi_app, App.full_dispatch_request, App.view,
    App.index, App.update, App.delete, App.search, App.hash_password,
    App.validate_on_submit, App.bind_form, App.csrf_protect,
    App.handle_exception, App.internal_error, App.not_found_error,
    App.new_session, App.shutdown_session.

Ltac unfold_monad :=
  unfold App.hash_password, App.bcrypt_generate_password_hash,
    get_or_404, query_get, query_all, execute_select_by_email, reading,
    session_add, session_delete, setattr_fname, setattr_lname, setattr_email,
    session_push, session_commit, session_rollback, flash,
    mbind, M_bind, bind, mret, M_ret, ret, raise.

Section Views.

Context `{EmailValidator}.

(** [validate_on_submit], by the verdict on the bound form. *)
Lemma validate_on_submit_spec req f :
  exists f',
    App.validate_on_submit req f
    = (App.is_submitted req && (csrf_valid req && form_passes f), f')
    /\ trimmed f' = trimmed f
    /\ data (StudentForm.fname f') = data (StudentForm.fname f)
    /\ data (StudentForm.lname f') = data (StudentForm.lname f)
    /\ data (StudentForm.email f') = data (StudentForm.email f)
    /\ (App.is_submitted req = true ->
        (errors (StudentForm.fname f') = []
         <-> name_passes (data (StudentForm.fname f)) = true)
        /\ (errors (StudentForm.lname f') = []
            <-> name_passes (data (StudentForm.lname f)) = true)
        /\ (errors (StudentForm.email f') = []
            <-> email_passes (data (StudentForm.email f)) = true))
    /\ (App.is_submitted req = false -> f' = f).
Proof.
  unfold App.validate_on_submit.
  destruct (validate_spec f) as (f' & -> & D1 & D2 & D3 & E).
  destruct (App.is_submitted req).
  - exists f'. unfold trimmed, App.data_strip. rewrite D1, D2, D3.
    by split_and!.
  - exists f. by split_and!.
Qed.

(** The create view, as one equation. *)
Lemma index_eq req e w :
  let f := App.bind_form req None in
  App.index req e w =
    if App.is_submitted req && (csrf_valid req && form_passes f) then
      if write_fails e then
        (Raise (SQLAlchemyError "COMMIT"),
         mk_world (db w) (session w ++ [Add (trimmed f)]) (flashes w))
      else
        (Ok (redirect "/"),
         mk_world (flush (session w ++ [Add (trimmed f)]) (db w)) []
           (flashes w ++ [("success", "Student added successfully and securely!")]))
    else if read_fails e then
      (Raise (SQLAlchemyError "SELECT * FROM student"), w)
    else
      (Ok (render_template "index.html"
             [("form", CForm (snd (App.validate_on_submit req f)));
              ("students", CStudents (select_all (db w)))]), w).
Proof.
  cbv zeta. unfold App.index.
  destruct (validate_on_submit_spec req (App.bind_form req None))
    as (f' & -> & T & _).
  cbn [snd].
  destruct (App.is_submitted req && (csrf_valid req && form_passes _)).
  - unfold_monad. fold (trimmed f'). rewrite T.
    cbn [db session flashes]. by destruct (write_fails e).
  - unfold_monad. by destruct (read_fails e).
Qed.

(** The assignments of the update view. *)
Lemma update_eq id req e w :
  App.update id req e w =
    if read_fails e then
      (Raise (SQLAlchemyError "SELECT * FROM student WHERE id = ?"), w)
    else
      match db w !! id with
      | None =>
          if sqlite_integer id then (Raise (HTTPException 404), w)
          else (Raise OverflowError, w)
      | Some r =>
          let f := App.bind_form req (Some r) in
          if App.is_submitted req && (csrf_valid req && form_passes f) then
            if write_fails e then
              (Raise (SQLAlchemyError "COMMIT"),
               mk_world (db w) (session w ++ assignments id (trimmed f))
                        (flashes w))
            else
              (Ok (redirect "/"),
               mk_world (flush (session w ++ assignments id (trimmed f)) (db w))
                        [] (flashes w ++ [("info", "Record updated securely!")]))
          else
            (Ok (render_template "update.html"
                   [("form", CForm (snd (App.validate_on_submit req f)));
                    ("student", CStudent (id, r))]), w)
      end.
Proof.
  unfold App.update. unfold_monad.
  destruct (read_fails e); [done|].
  destruct (db w !! id) as [r|]; cbn [fmap option_fmap option_map snd];
    [|by destruct (sqlite_integer id)].
  cbv zeta.
  destruct (validate_on_submit_spec req (App.bind_form req (Some r)))
    as (f' & -> & T & _).
  cbn [snd].
  destruct (App.is_submitted req && (csrf_valid req && form_passes _)); [|done].
  unfold assignments. rewrite <- T. unfold trimmed.
  cbn [db session flashes Student.id fst Student.fname Student.lname Student.email].
  rewrite <- !app_assoc. cbn [app].
  by destruct (write_fails e).
Qed.

(** The delete view. *)
Lemma delete_eq id e w :
  App.delete id e w =
    if read_fails e then
      (Raise (SQLAlchemyError "SELECT * FROM student WHERE id = ?"), w)
    else
      match db w !! id with
      | None =>
          if sqlite_integer id then (Raise (HTTPException 404), w)
          else (Raise OverflowError, w)
      | Some r =>
          if write_fails e then
            (Raise (SQLAlchemyError "COMMIT"),
             mk_world (db w) (session w ++ [Del id]) (flashes w))
          else
            (Ok (redirect "/"),
             mk_world (flush (session w ++ [Del id]) (db w)) []
                      (flashes w ++ [("danger", "Student deleted securely!")]))
      end.
Proof.
  unfold App.delete. unfold_monad.
  destruct (read_fails e); [done|].
  destruct (db w !! id) as [r|]; cbn [fmap option_fmap option_map];
    [|by destruct (sqlite_integer id)].
  cbn [db session flashes Student.id fst].
  by destruct (write_fails e).
Qed.

(** The comprehension over the rows: nothing to convert, all rows
    converted, or the first conversion raising. *)
Lemma comprehension_dict cfg (l : list Student.row) e w :
  App.comprehension (App.dict cfg) l e w =
    match l with
    | [] => (Ok [], w)
    | _ :: _ =>
        if App.rows_are_mappings cfg then (Ok l, w) else (Raise TypeError, w)
    end.
Proof.
  destruct (App.rows_are_mappings cfg) eqn:Hm.
  - assert (Hd : forall r, App.dict cfg r e w = (Ok r, w))
      by (intros r; unfold App.dict; by rewrite Hm).
    assert (Hall : App.comprehension (App.dict cfg) l e w = (Ok l, w)).
    { induction l as [|r l IH]; [done|].
      cbn [App.comprehension]. unfold mbind, M_bind, bind.
      by rewrite Hd, IH. }
    rewrite Hall. by destruct l.
  - destruct l as [|r l]; [done|].
    cbn [App.comprehension]. unfold mbind, M_bind, bind.
    unfold App.dict at 1. by rewrite Hm.
Qed.

(** The search view. *)
Lemma search_eq cfg req e w :
  App.search cfg req e w =
    match args_email req with
    | Some (c :: s) =>
        if read_fails e then
          (Raise (SQLAlchemyError "SELECT * FROM student WHERE email=:email"), w)
        else
          match select_by_email (c :: s) (db w) with
          | [] => (Ok (mk_response 200 (Json [])), w)
          | rows =>
              if App.rows_are_mappings cfg
              then (Ok (mk_response 200 (Json rows)), w)
              else (Raise TypeError, w)
          end
    | _ => (Ok (mk_response 200 (Json [])), w)
    end.
Proof.
  unfold App.search. destruct (args_email req) as [[|c s]|]; try done.
  cbn [default truthy id]. unfold_monad.
  destruct (read_fails e); [done|].
  pose proof (comprehension_dict cfg (select_by_email (c :: s) (db w)) e w)
    as Hc.
  unfold mbind, M_bind, bind in Hc. rewrite Hc.
  destruct (select_by_email (c :: s) (db w)); [done|].
  by destruct (App.rows_are_mappings cfg).
Qed.

End Views.

Section Dispatch.

Context `{EmailValidator}.

(** What [wsgi_app] makes of the outcome of the dispatch. *)
Lemma wsgi_app_ok cfg req e w r w' :
  App.full_dispatch_request cfg req e w = (Ok r, w') ->
  App.wsgi_app cfg req e w = (r, w').
Proof. unfold App.wsgi_app. by intros ->. Qed.

Lemma wsgi_app_not_found cfg req e w w' :
  App.full_dispatch_request cfg req e w = (Raise (HTTPException 404), w') ->
  App.wsgi_app cfg req e w
  = (with_status (render_template "404.html" []) 404, w').
Proof. unfold App.wsgi_app. by intros ->. Qed.

Lemma wsgi_app_http cfg req e w w' code :
  code <> 404 ->
  App.full_dispatch_request cfg req e w = (Raise (HTTPException code), w') ->
  App.wsgi_app cfg req e w = (mk_response code DefaultPage, w').
Proof.
  unfold App.wsgi_app. intros Hc ->. cbn [App.handle_exception].
  by destruct (N.eqb_spec code 404).
Qed.

(** An exception that is not an HTTP exception is an internal error. *)
Lemma wsgi_app_error cfg req e w w' x :
  (forall code, x <> HTTPException code) ->
  App.full_dispatch_request cfg req e w = (Raise x, w') ->
  App.wsgi_app cfg req e w
  = if App.debug cfg then (mk_response 500 (Traceback x), w')
    else (with_status (render_template "500.html" []) 500,
          mk_world (db w') [] (flashes w')).
Proof.
  unfold App.wsgi_app. intros Hx ->.
  destruct x as [code| | | |]; [by destruct (Hx code)|..];
    cbn [App.handle_exception]; by destruct (App.debug cfg).
Qed.

Lemma wsgi_app_internal cfg req e w w' stmt :
  App.full_dispatch_request cfg req e w = (Raise (SQLAlchemyError stmt), w') ->
  App.wsgi_app cfg req e w
  = if App.debug cfg
    then (mk_response 500 (Traceback (SQLAlchemyError stmt)), w')
    else (with_status (render_template "500.html" []) 500,
          mk_world (db w') [] (flashes w')).
Proof.
  unfold App.wsgi_app. intros ->. cbn [App.handle_exception].
  by destruct (App.debug cfg).
Qed.

End Dispatch.

(** ** Every request is a step of the table *)

Section Steps.

Context `{EmailValidator}.

(** The dispatch, as one equation. *)
Lemma dispatch_eq cfg req e w :
  App.full_dispatch_request cfg req e w =
    match path req with
    | Unmatched => (Raise (HTTPException 404), w)
    | _ =>
        if bool_decide (method req ∈ App.rule_methods (path req)) then
          if App.is_submitted req && negb (csrf_valid req)
          then (Raise (HTTPException 400), w)
          else if bool_decide (method req = OPTIONS)
               then (Ok (mk_response 200 DefaultPage), w)
               else App.view cfg req e w
        else (Raise (HTTPException 405), w)
    end.
Proof.
  unfold App.full_dispatch_request, App.csrf_protect.
  destruct (path req); try done;
    destruct (bool_decide (method req ∈ _)); try done;
    unfold_monad;
    destruct (App.is_submitted req && negb (csrf_valid req)); try done;
    by destruct (bool_decide (method req = OPTIONS)).
Qed.

(** A form that passes has three strings, and they are what is written. *)
Lemma form_passes_inv f :
  form_passes f = true ->
  exists a b c,
    data (StudentForm.fname f) = Some a
    /\ data (StudentForm.lname f) = Some b
    /\ data (StudentForm.email f) = Some c
    /\ name_passes (Some a) = true /\ name_passes (Some b) = true
    /\ email_passes (Some c) = true
    /\ trimmed f = Student.mk (strip a) (strip b) (strip c).
Proof.
  unfold form_passes, trimmed, App.data_strip.
  intros [[Ha Hb]%andb_prop Hc]%andb_prop.
  destruct (data (StudentForm.fname f)) as [a|]; [|done].
  destruct (data (StudentForm.lname f)) as [b|]; [|done].
  destruct (data (StudentForm.email f)) as [c|]; [|done].
  exists a, b, c. by split_and!.
Qed.

(** The step that changes nothing. *)
Local Ltac same := cbn [snd]; apply step_same.

Lemma view_step cfg req e w :
  session w = [] -> db_step (db w) (db (snd (App.view cfg req e w))).
Proof.
  intros Hs. unfold App.view. destruct (path req) as [|id|id| |pwd|].
  - rewrite index_eq. cbv zeta. rewrite Hs. cbn [app].
    destruct (App.is_submitted req && _) eqn:E.
    + apply andb_prop in E as [_ [_ E]%andb_prop].
      destruct (form_passes_inv _ E) as (a & b & c & _ & _ & _ & ? & ? & ? & ->).
      destruct (write_fails e); cbn [snd db]; [same|].
      rewrite flush_add. by apply step_insert.
    + destruct (read_fails e); same.
  - rewrite update_eq.
    destruct (read_fails e); [same|].
    destruct (db w !! id) as [r|] eqn:Er;
      [|by destruct (sqlite_integer id); same].
    cbv zeta. rewrite Hs. cbn [app].
    destruct (App.is_submitted req && _) eqn:E; [|same].
    apply andb_prop in E as [_ [_ E]%andb_prop].
    destruct (form_passes_inv _ E) as (a & b & c & _ & _ & _ & ? & ? & ? & ->).
    destruct (write_fails e); cbn [snd db]; [same|].
    unfold assignments. cbn [Student.fname Student.lname Student.email].
    rewrite (flush_set _ _ r) by done. by eapply step_replace.
  - rewrite delete_eq.
    destruct (read_fails e); [same|].
    destruct (db w !! id) as [r|] eqn:Er;
      [|by destruct (sqlite_integer id); same].
    rewrite Hs. cbn [app].
    destruct (write_fails e); cbn [snd db]; [same|].
    rewrite flush_del. by eapply step_delete.
  - rewrite search_eq. destruct (args_email req) as [[|c s]|]; try same.
    destruct (read_fails e); [same|].
    destruct (select_by_email (c :: s) (db w)); [same|].
    destruct (App.rows_are_mappings cfg); same.
  - unfold_monad. destruct (negb (truthy pwd)); [same|].
    destruct (App.bcrypt_rejects_long cfg && (72 <? App.utf8_length pwd)%nat);
      same.
  - same.
Qed.

Lemma dispatch_step cfg req e w :
  session w = [] ->
  db_step (db w) (db (snd (App.full_dispatch_request cfg req e w))).
Proof.
  intros Hs. rewrite dispatch_eq. pose proof (view_step cfg req e w Hs) as Hv.
  destruct (path req); try same;
    destruct (bool_decide (method req ∈ _)); try same;
    destruct (App.is_submitted req && negb (csrf_valid req)); try same;
    destruct (bool_decide (method req = OPTIONS)); try same;
    exact Hv.
Qed.

(** The error handlers leave the table alone. *)
Lemma handle_exception_db cfg x e w :
  db (snd (App.handle_exception cfg x e w)) = db w.
Proof.
  destruct x as [code|stmt| | |]; cbn [App.handle_exception];
    [by destruct (code =? 404)|by destruct (App.debug cfg)..].
Qed.

Lemma wsgi_app_db cfg req e w :
  db (snd (App.wsgi_app cfg req e w))
  = db (snd (App.full_dispatch_request cfg req e w)).
Proof.
  unfold App.wsgi_app.
  destruct (App.full_dispatch_request cfg req e w) as [[r|x] w']; [done|].
  pose proof (handle_exception_db cfg x e w') as Hx.
  destruct (App.handle_exception cfg x e w') as [[r|y] w'']; exact Hx.
Qed.

(** Serving a request takes the table one step, and leaves no session. *)
Theorem serve_step cfg req e w :
  session (snd (App.serve cfg req e w)) = []
  /\ db_step (db w) (db (snd (App.serve cfg req e w))).
Proof.
  unfold App.serve.
  pose proof (wsgi_app_db cfg req e (App.new_session w)) as Hdb.
  pose proof (dispatch_step cfg req e (App.new_session w) eq_refl) as Hstep.
  destruct (App.wsgi_app cfg req e (App.new_session w)) as [r w'].
  cbn [snd App.shutdown_session session db] in *. split; [done|].
  by rewrite Hdb.
Qed.

End Steps.

(** ** What the table holds *)

Section Invariant.

Context `{EmailValidator}.

(** A string the pattern matches is letters and spaces, or letters and
    spaces and one final newline. *)
Lemma re_letters_spaces_inv s :
  re_letters_spaces s = true ->
  Forall (fun c => letter_or_space c = true) s
  \/ exists t, s = t ++ [newline]
               /\ Forall (fun c => letter_or_space c = true) t.
Proof.
  induction s as [|c s IH]; [by left|].
  destruct s as [|c' s'].
  - simpl. intros [Hc|Hc]%orb_prop.
    + left. by repeat constructor.
    + right. exists []. apply N.eqb_eq in Hc as ->. by split.
  - change (re_letters_spaces (c :: c' :: s'))
      with (letter_or_space c && re_letters_spaces (c' :: s')).
    intros [Hc Hs]%andb_prop. destruct (IH Hs) as [Hall|(t & -> & Hall)].
    + left. by constructor.
    + right. exists (c :: t). split; [done|by constructor].
Qed.


(** A name that passed the form is stored as 1 to 50 letters and spaces. *)
Lemma name_passes_stored a :
  name_passes (Some a) = true -> stored_name (strip a).
Proof.
  unfold name_passes.
  intros [[Hb [_ Hmax%Nat.leb_le]%andb_prop]%andb_prop Hre]%andb_prop.
  split.
  - split; [by apply not_blank_length|].
    pose proof (strip_length a). lia.
  - destruct (re_letters_spaces_inv a Hre) as [Hall|(t & -> & Hall)].
    + by apply strip_Forall.
    + rewrite strip_snoc_space by done. by apply strip_Forall.
Qed.

Lemma email_passes_stored c :
  email_passes (Some c) = true ->
  strip c <> [] /\ exists raw, validate_email raw = true /\ strip c = strip raw.
Proof.
  unfold email_passes, not_blank. intros [Hb Hv]%andb_prop. split.
  - by destruct (strip c).
  - by exists c.
Qed.

Lemma db_step_ok t t' : table_ok t -> db_step t t' -> table_ok t'.
Proof.
  intros Hok [|a b c Ha Hb Hc|id r a b c Hr Ha Hb Hc|id r Hr]; [done|..].
  - intros k s. destruct (decide (k = next_id t)) as [->|Hne].
    + rewrite lookup_insert_eq. intros [= <-].
      destruct (email_passes_stored c Hc).
      split_and!; cbn; auto using name_passes_stored.
    + rewrite lookup_insert_ne by done. apply Hok.
  - intros k s. destruct (decide (k = id)) as [->|Hne].
    + rewrite lookup_insert_eq. intros [= <-].
      destruct (email_passes_stored c Hc).
      split_and!; cbn; auto using name_passes_stored.
    + rewrite lookup_insert_ne by done. apply Hok.
  - intros k s. destruct (decide (k = id)) as [->|Hne].
    + by rewrite lookup_delete_eq.
    + rewrite lookup_delete_ne by done. apply Hok.
Qed.

(** Between two requests the session is empty and every row of the table
    was written from a form that passed. *)
Theorem reachable_ok cfg w :
  App.reachable cfg w -> session w = [] /\ table_ok (db w).
Proof.
  induction 1 as [|w req e _ [_ IH]].
  - split; [done|]. intros id s. unfold App.initial. cbn [db].
    by rewrite lookup_empty.
  - destruct (serve_step cfg req e w) as [Hs Hstep].
    split; [done|]. by eapply db_step_ok.
Qed.

End Invariant.

(** ** Search *)

Section Search.

Context `{EmailValidator}.

(** [GET /search] reaches the view, whatever the query string. *)
Lemma dispatch_search cfg q e w :
  App.full_dispatch_request cfg (get_search q) e w
  = App.search cfg (get_search q) e w.
Proof. rewrite dispatch_eq. reflexivity. Qed.

Lemma world_eta w : mk_world (db w) (session w) (flashes w) = w.
Proof. by destruct w. Qed.

Lemma serve_search_empty cfg q e w :
  match q with Some (_ :: _) => False | _ => True end ->
  App.serve cfg (get_search q) e w
  = (mk_response 200 (Json []), mk_world (db w) [] (flashes w)).
Proof.
  intros Hq. unfold App.serve.
  rewrite (wsgi_app_ok cfg _ e _ (mk_response 200 (Json [])) (App.new_session w)).
  - reflexivity.
  - rewrite dispatch_search, search_eq. by destruct q as [[|c s]|].
Qed.

(** A query that matches no row is answered with the empty result, whatever
    the rows of the library are. *)
Lemma serve_search_no_row cfg c s e w :
  read_fails e = false ->
  select_by_email (c :: s) (db w) = [] ->
  App.serve cfg (get_search (Some (c :: s))) e w
  = (mk_response 200 (Json []), untouched w).
Proof.
  intros Hr Hno. unfold App.serve.
  rewrite (wsgi_app_ok cfg _ e _ (mk_response 200 (Json []))
             (App.new_session w)).
  - reflexivity.
  - rewrite dispatch_search, search_eq. cbn [get_search args_email].
    rewrite Hr. cbn [App.new_session db]. by rewrite Hno.
Qed.

(** With rows that are mappings, the rows that match are the result. *)
Lemma serve_search_value cfg c s e w :
  App.rows_are_mappings cfg = true ->
  read_fails e = false ->
  App.serve cfg (get_search (Some (c :: s))) e w
  = (mk_response 200 (Json (select_by_email (c :: s) (db w))),
     mk_world (db w) [] (flashes w)).
Proof.
  intros Hm Hr. unfold App.serve.
  rewrite (wsgi_app_ok cfg _ e _
             (mk_response 200 (Json (select_by_email (c :: s) (db w))))
             (App.new_session w)).
  - reflexivity.
  - rewrite dispatch_search, search_eq. cbn [get_search args_email].
    rewrite Hr, Hm. cbn [App.new_session db].
    by destruct (select_by_email (c :: s) (db w)).
Qed.

(** With rows that are tuples, a row that matches makes [dict] raise. *)
Lemma serve_search_type_error cfg c s e w :
  App.rows_are_mappings cfg = false ->
  read_fails e = false ->
  select_by_email (c :: s) (db w) <> [] ->
  App.serve cfg (get_search (Some (c :: s))) e w
  = (error_page cfg TypeError, untouched w).
Proof.
  intros Hm Hr Hrows. unfold App.serve.
  rewrite (wsgi_app_error cfg _ e _ (App.new_session w) TypeError); [|done|].
  - unfold error_page. by destruct (App.debug cfg).
  - rewrite dispatch_search, search_eq. cbn [get_search args_email].
    rewrite Hr, Hm. cbn [App.new_session db].
    by destruct (select_by_email (c :: s) (db w)).
Qed.

(** No row matches exactly when no record has the email. *)
Lemma select_by_email_nil (t : table) q :
  select_by_email q t = []
  <-> forall id s, t !! id = Some s -> Student.email s <> q.
Proof.
  split.
  - intros Hnil id s Hid Hq.
    assert (Hin : (id, s) ∈ select_by_email q t)
      by (by apply select_by_email_spec).
    rewrite Hnil in Hin. by apply elem_of_nil in Hin.
  - intros Hno. destruct (select_by_email q t) as [|[id s] l] eqn:E; [done|].
    assert (Hin : (id, s) ∈ select_by_email q t)
      by (rewrite E; apply list_elem_of_here).
    apply select_by_email_spec in Hin as [Hid Hq]. by destruct (Hno id s).
Qed.

End Search.

(** C2, at an input that breaks it.  With the rows of the current releases
    of SQLAlchemy, which are tuples, [dict(r)] on line 124 raises
    [TypeError] as soon as a row matches: the record of Ann is stored and
    the statement selects it, but [GET /search?email=ann@x.com] is answered
    with the 500 page (the traceback under the debugger) and not with the
    record.  With the rows of the releases up to 1.3, which are mappings,
    the same request returns the record. *)
Theorem search_match_raises_type_error :
  let q := py "ann@x.com" in
  let ann_row := (1, Student.mk (py "Ann") (py "Lee") (py "ann@x.com")) in
  select_by_email q (db ann_world) = [ann_row]
  /\ App.rows_are_mappings App.imported = false
  /\ App.serve App.imported (get_search (Some q)) healthy ann_world
     = (page_500, ann_world)
  /\ App.serve App.main (get_search (Some q)) healthy ann_world
     = (mk_response 500 (Traceback TypeError), ann_world)
  /\ App.serve App.imported_legacy (get_search (Some q)) healthy ann_world
     = (mk_response 200 (Json [ann_row]), ann_world).
Proof. by vm_compute. Qed.

(** X20.  Where the rows of SQLAlchemy are mappings (its releases up to
    1.3), for every string [q], [GET /search?email=q] answers with the rows
    whose email is [q], compared as text: each such row once and no other
    row, so the row of an address that is stored, nothing for an address
    that is not, whatever quotes and keywords the value is made of.  The
    request changes nothing.  For the empty [q], which is answered without
    a query, this holds because no row the application has written has an
    empty email. *)
Theorem search_exact_match `{EmailValidator} cfg e w q :
  App.rows_are_mappings cfg = true ->
  read_fails e = false ->
  (q = [] -> App.reachable cfg w) ->
  exists result,
    App.serve cfg (get_search (Some q)) e w
    = (mk_response 200 (Json result), untouched w)
    /\ NoDup result
    /\ (forall id s,
          (id, s) ∈ result <-> db w !! id = Some s /\ Student.email s = q)
    /\ ((forall id s, db w !! id = Some s -> Student.email s <> q)
        -> result = []).
Proof.
  intros Hm Hr Hq.
  exists (select_by_email q (db w)). split_and!.
  - destruct q as [|c s].
    + rewrite serve_search_empty by done. f_equal. f_equal. f_equal.
      symmetry. apply select_by_email_nil. intros id s Hid.
      destruct (reachable_ok cfg w (Hq eq_refl)) as [_ Hok].
      by destruct (Hok id s Hid) as (_ & _ & Hne & _).
    + by rewrite serve_search_value.
  - apply select_by_email_NoDup.
  - intros id s. apply select_by_email_spec.
  - apply select_by_email_nil.
Qed.

Lemma search_exact_match_witness :
  exists result,
    App.serve App.imported_legacy (get_search (Some (py "ann@x.com"))) healthy
              ann_world
    = (mk_response 200 (Json result), untouched ann_world)
    /\ NoDup result
    /\ (forall id s,
          (id, s) ∈ result
          <-> db ann_world !! id = Some s
              /\ Student.email s = py "ann@x.com")
    /\ ((forall id s, db ann_world !! id = Some s
                      -> Student.email s <> py "ann@x.com")
        -> result = []).
Proof.
  apply (search_exact_match App.imported_legacy healthy ann_world
           (py "ann@x.com")); [reflexivity | reflexivity |].
  intros _.
  change ann_world
    with (snd (App.serve App.imported_legacy (post UrlIndex ann true) healthy
                         App.initial)).
  apply App.reachable_serve, App.reachable_initial.
Defined.

(** X21.  Where the rows of SQLAlchemy are tuples (its releases 2.x),
    a [GET /search?email=q] with a [q] that is not empty returns no
    record at all: it is answered with the empty result when no record has
    the email [q], and with an internal error (the 500 page, or the
    traceback of [TypeError] under the debugger) when some record has it.
    The request changes nothing. *)
Theorem search_on_tuple_rows `{EmailValidator} cfg e w c s :
  App.rows_are_mappings cfg = false ->
  read_fails e = false ->
  ((forall id r, db w !! id = Some r -> Student.email r <> c :: s) ->
   App.serve cfg (get_search (Some (c :: s))) e w
   = (mk_response 200 (Json []), untouched w))
  /\ (forall id r, db w !! id = Some r -> Student.email r = c :: s ->
      App.serve cfg (get_search (Some (c :: s))) e w
      = (error_page cfg TypeError, untouched w)).
Proof.
  intros Hm Hr. split.
  - intros Hno. apply serve_search_no_row; [done|].
    by apply select_by_email_nil.
  - intros id r Hid Hq. apply serve_search_type_error; [done..|].
    intros Hnil. rewrite select_by_email_nil in Hnil. by apply (Hnil id r).
Qed.

Lemma search_on_tuple_rows_witness :
  ((forall id r, db ann_world !! id = Some r
                 -> Student.email r <> py "ann@x.com") ->
   App.serve App.imported (get_search (Some (py "ann@x.com"))) healthy
             ann_world
   = (mk_response 200 (Json []), untouched ann_world))
  /\ (forall id r, db ann_world !! id = Some r ->
      Student.email r = py "ann@x.com" ->
      App.serve App.imported (get_search (Some (py "ann@x.com"))) healthy
                ann_world
      = (error_page App.imported TypeError, untouched ann_world)).
Proof.
  apply (search_on_tuple_rows App.imported healthy ann_world 97
           (py "nn@x.com")); reflexivity.
Defined.

(** With rows that are mappings the stored address is found, the same
    address with an injection tail is not; the injection tail finds nothing
    with rows that are tuples either. *)
Example search_scenario :
  fst (App.serve App.imported_legacy (get_search (Some (py "ann@x.com")))
                 healthy ann_world)
  = mk_response 200
      (Json [(1, Student.mk (py "Ann") (py "Lee") (py "ann@x.com"))])
  /\ fst (App.serve App.imported_legacy
            (get_search (Some (py "ann@x.com' OR '1'='1"))) healthy ann_world)
     = mk_response 200 (Json [])
  /\ fst (App.serve App.imported
            (get_search (Some (py "ann@x.com' OR '1'='1"))) healthy ann_world)
     = mk_response 200 (Json [])
  /\ fst (App.serve App.imported_legacy (get_search (Some (py "bob@x.com")))
                    healthy ann_world)
     = mk_response 200 (Json []).
Proof. by vm_compute. Qed.

(** C10. [GET /search?email=] with the parameter present and empty answers
    as [GET /search] without the parameter does: an empty result, the world
    as it was.  The table is not read: the answer is the same on every
    table, also one with a row whose email is empty, and also when the
    database does not answer. *)
Theorem search_empty_parameter `{EmailValidator} cfg e w :
  App.serve cfg (get_search (Some [])) e w
  = App.serve cfg (get_search None) e w
  /\ App.serve cfg (get_search (Some [])) e w
     = (mk_response 200 (Json []), mk_world (db w) [] (flashes w)).
Proof. by rewrite !serve_search_empty. Qed.

(** A row with an empty email is not returned for the empty parameter. *)
Example empty_parameter_skips_empty_email_row :
  let w := mk_world {[ 7 := Student.mk (py "Ann") (py "Lee") [] ]} [] [] in
  select_by_email [] (db w) = [(7, Student.mk (py "Ann") (py "Lee") [])]
  /\ fst (App.serve App.imported (get_search (Some [])) healthy w)
     = mk_response 200 (Json []).
Proof. by vm_compute. Qed.

(** ** Requests by method and path *)

Section Routes.

Context `{EmailValidator}.

Lemma dispatch_get cfg u e w :
  u <> Unmatched ->
  App.full_dispatch_request cfg (get u) e w = App.view cfg (get u) e w.
Proof. intros Hu. rewrite dispatch_eq. by destruct u. Qed.

Lemma dispatch_post_index cfg fd e w :
  App.full_dispatch_request cfg (post UrlIndex fd true) e w
  = App.index (post UrlIndex fd true) e w.
Proof. by rewrite dispatch_eq. Qed.

Lemma dispatch_post_update cfg id fd e w :
  App.full_dispatch_request cfg (post (UrlUpdate id) fd true) e w
  = App.update id (post (UrlUpdate id) fd true) e w.
Proof. by rewrite dispatch_eq. Qed.

(** A POST without a valid token stops at the CSRF check. *)
Lemma dispatch_post_no_token cfg u fd e w :
  u = UrlIndex \/ (exists id, u = UrlUpdate id) ->
  App.full_dispatch_request cfg (post u fd false) e w
  = (Raise (HTTPException 400), w).
Proof. intros [->|[id ->]]; by rewrite dispatch_eq. Qed.


Lemma serve_ok cfg req e w r w' :
  App.full_dispatch_request cfg req e (App.new_session w) = (Ok r, w') ->
  App.serve cfg req e w = (r, App.shutdown_session w').
Proof. intros Hd. unfold App.serve. by rewrite (wsgi_app_ok _ _ _ _ _ _ Hd). Qed.

Lemma serve_not_found cfg req e w w' :
  App.full_dispatch_request cfg req e (App.new_session w)
  = (Raise (HTTPException 404), w') ->
  App.serve cfg req e w = (page_404, App.shutdown_session w').
Proof.
  intros Hd. unfold App.serve. by rewrite (wsgi_app_not_found _ _ _ _ _ Hd).
Qed.

Lemma serve_http cfg req e w w' code :
  code <> 404 ->
  App.full_dispatch_request cfg req e (App.new_session w)
  = (Raise (HTTPException code), w') ->
  App.serve cfg req e w = (mk_response code DefaultPage, App.shutdown_session w').
Proof.
  intros Hc Hd. unfold App.serve. by rewrite (wsgi_app_http _ _ _ _ _ _ Hc Hd).
Qed.

Lemma serve_internal cfg req e w w' stmt :
  App.full_dispatch_request cfg req e (App.new_session w)
  = (Raise (SQLAlchemyError stmt), w') ->
  App.serve cfg req e w
  = (if App.debug cfg then mk_response 500 (Traceback (SQLAlchemyError stmt))
     else page_500, untouched w').
Proof.
  intros Hd. unfold App.serve. rewrite (wsgi_app_internal _ _ _ _ _ _ Hd).
  by destruct (App.debug cfg).
Qed.

Lemma serve_error cfg req e w w' x :
  (forall code, x <> HTTPException code) ->
  App.full_dispatch_request cfg req e (App.new_session w) = (Raise x, w') ->
  App.serve cfg req e w = (error_page cfg x, untouched w').
Proof.
  intros Hx Hd. unfold App.serve. rewrite (wsgi_app_error _ _ _ _ _ _ Hx Hd).
  unfold error_page. by destruct (App.debug cfg).
Qed.

(** A GET or a HEAD reaches the view of its rule, whatever else the request
    carries. *)
Lemma dispatch_read cfg m u args fd tok e w :
  m = GET \/ m = HEAD -> u <> Unmatched ->
  App.full_dispatch_request cfg (mk_request m u args fd tok) e w
  = App.view cfg (mk_request m u args fd tok) e w.
Proof. intros [->| ->] Hu; rewrite dispatch_eq; by destruct u. Qed.

(** *** Delete *)




(** An id that SQLite cannot hold, on a table without it: the lookup
    raises, in the update view as in the delete view. *)
Lemma serve_lookup_overflow cfg m args fd tok u id e w :
  m = GET \/ m = HEAD ->
  u = UrlUpdate id \/ u = UrlDelete id ->
  read_fails e = false -> db w !! id = None -> sqlite_integer id = false ->
  App.serve cfg (mk_request m u args fd tok) e w
  = (error_page cfg OverflowError, untouched w).
Proof.
  intros Hm Hu Hr Hid Hint.
  rewrite (serve_error cfg _ e w (App.new_session w) OverflowError);
    [reflexivity|done|].
  destruct Hu as [-> | ->]; rewrite dispatch_read by done;
    unfold App.view; cbn [path]; rewrite ?delete_eq, ?update_eq, Hr;
    cbn [App.new_session db]; by rewrite Hid, Hint.
Qed.



(** *** Update *)

Lemma serve_update_get_missing cfg id e w :
  read_fails e = false -> db w !! id = None -> sqlite_integer id = true ->
  App.serve cfg (get (UrlUpdate id)) e w = (page_404, untouched w).
Proof.
  intros Hr Hid Hint. erewrite serve_not_found; cycle 1.
  { rewrite dispatch_get by done. unfold App.view. cbn [get path].
  rewrite update_eq, Hr. cbn [App.new_session db]. by rewrite Hid, Hint. }
  reflexivity.
Qed.

Lemma serve_update_post_missing cfg id fd e w :
  read_fails e = false -> db w !! id = None -> sqlite_integer id = true ->
  App.serve cfg (post (UrlUpdate id) fd true) e w = (page_404, untouched w).
Proof.
  intros Hr Hid Hint. erewrite serve_not_found; cycle 1.
  { rewrite dispatch_post_update, update_eq, Hr. cbn [App.new_session db].
  by rewrite Hid, Hint. }
  reflexivity.
Qed.

Lemma serve_post_no_token cfg u fd e w :
  u = UrlIndex \/ (exists id, u = UrlUpdate id) ->
  App.serve cfg (post u fd false) e w
  = (mk_response 400 DefaultPage, untouched w).
Proof.
  intros Hu. rewrite (serve_http cfg _ e w (App.new_session w) 400);
    [reflexivity|done|by apply dispatch_post_no_token].
Qed.


End Routes.
(** ** Delete and update of a missing record *)

Lemma sqlite_integer_lt id : id < 2 ^ 63 -> sqlite_integer id = true.
Proof. intros Hid. unfold sqlite_integer. by apply N.ltb_lt. Qed.

Lemma sqlite_integer_ge id : 2 ^ 63 <= id -> sqlite_integer id = false.
Proof. intros Hid. unfold sqlite_integer. by apply N.ltb_ge. Qed.




(** The scenario of the specification: after the delete by GET the record
    is gone. *)
Example delete_scenario :
  let w' := snd (App.serve App.imported (get (UrlDelete 1)) healthy ann_world) in
  fst (App.serve App.imported (get (UrlDelete 1)) healthy ann_world)
  = redirect "/"
  /\ db w' = ∅
  /\ flashes w' = [("success", "Student added successfully and securely!");
                   ("danger", "Student deleted securely!")].
Proof. by vm_compute. Qed.

(** A HEAD deletes as a GET does. *)
Example delete_by_head :
  let req := mk_request HEAD (UrlDelete 1) None StudentForm.no_formdata false in
  fst (App.serve App.imported req healthy ann_world) = redirect "/"
  /\ db (snd (App.serve App.imported req healthy ann_world)) = ∅.
Proof. by vm_compute. Qed.

(** C6, as the code has it.  When no record has the id, and the id is one
    SQLite can hold (below 2^63), [GET /update/id] and a [POST /update/id]
    with a valid CSRF token are answered with the not-found page; a POST
    without a valid token is refused with 400 before the record is looked
    up.  None of them creates a record or changes the table. *)
Theorem update_missing_record `{EmailValidator} cfg e w id :
  read_fails e = false ->
  db w !! id = None ->
  id < 2 ^ 63 ->
  App.serve cfg (get (UrlUpdate id)) e w = (page_404, untouched w)
  /\ (forall fd,
        App.serve cfg (post (UrlUpdate id) fd true) e w
        = (page_404, untouched w))
  /\ (forall fd,
        App.serve cfg (post (UrlUpdate id) fd false) e w
        = (mk_response 400 DefaultPage, untouched w)).
Proof.
  intros Hr Hid Hlt. apply sqlite_integer_lt in Hlt. split_and!.
  - by apply serve_update_get_missing.
  - intros fd. by apply serve_update_post_missing.
  - intros fd. apply serve_post_no_token. right. by exists id.
Qed.

Lemma update_missing_record_witness :
  App.serve App.imported (get (UrlUpdate 7)) healthy ann_world
  = (page_404, untouched ann_world)
  /\ (forall fd,
        App.serve App.imported (post (UrlUpdate 7) fd true) healthy ann_world
        = (page_404, untouched ann_world))
  /\ (forall fd,
        App.serve App.imported (post (UrlUpdate 7) fd false) healthy ann_world
        = (mk_response 400 DefaultPage, untouched ann_world)).
Proof.
  apply (update_missing_record App.imported healthy ann_world 7); reflexivity.
Defined.

(** A POST to the update of a missing record that carries no valid token is
    answered 400, not 404. *)
Lemma update_missing_without_token :
  db ann_world !! 7 = None
  /\ status (fst (App.serve App.imported (post (UrlUpdate 7) ann false)
                            healthy ann_world)) = 400
  /\ fst (App.serve App.imported (post (UrlUpdate 7) ann false) healthy
                    ann_world)
     <> page_404.
Proof. by vm_compute. Qed.

(** X22.  An id of 2^63 or more is not one SQLite can bind: when no record
    has it, the lookup of [get_or_404] raises [OverflowError] instead of
    answering 404.  A GET or HEAD of [/update/id] or [/delete/id], and a
    POST to [/update/id] with a valid token, are then answered as an
    internal failure (the traceback under the debugger, the 500 page
    otherwise) and change nothing. *)
Theorem huge_id_lookup_fails `{EmailValidator} cfg e w id :
  read_fails e = false ->
  db w !! id = None ->
  2 ^ 63 <= id ->
  (forall m u args fd tok,
     m = GET \/ m = HEAD ->
     u = UrlUpdate id \/ u = UrlDelete id ->
     App.serve cfg (mk_request m u args fd tok) e w
     = (error_page cfg OverflowError, untouched w))
  /\ (forall fd,
        App.serve cfg (post (UrlUpdate id) fd true) e w
        = (error_page cfg OverflowError, untouched w)).
Proof.
  intros Hr Hid Hge. apply sqlite_integer_ge in Hge. split.
  - intros m u args fd tok Hm Hu. by apply (serve_lookup_overflow cfg m args fd tok u id).
  - intros fd.
    rewrite (serve_error cfg _ e w (App.new_session w) OverflowError);
      [reflexivity|done|].
    rewrite dispatch_post_update, update_eq, Hr. cbn [App.new_session db].
    by rewrite Hid, Hge.
Qed.

Lemma huge_id_lookup_fails_witness :
  (forall m u args fd tok,
     m = GET \/ m = HEAD ->
     u = UrlUpdate (2 ^ 63) \/ u = UrlDelete (2 ^ 63) ->
     App.serve App.imported (mk_request m u args fd tok) healthy ann_world
     = (error_page App.imported OverflowError, untouched ann_world))
  /\ (forall fd,
        App.serve App.imported (post (UrlUpdate (2 ^ 63)) fd true) healthy
                  ann_world
        = (error_page App.imported OverflowError, untouched ann_world)).
Proof.
  apply (huge_id_lookup_fails App.imported healthy ann_world (2 ^ 63));
    [reflexivity|reflexivity|].
  by vm_compute.
Defined.

(** The same lookup on the running application. *)
Example huge_id_scenario :
  App.serve App.imported (get (UrlUpdate (2 ^ 63))) healthy ann_world
  = (page_500, ann_world)
  /\ fst (App.serve App.main (get (UrlDelete (2 ^ 63))) healthy ann_world)
     = mk_response 500 (Traceback OverflowError).
Proof. by vm_compute. Qed.

(** ** Create and update *)

Section Forms.

Context `{EmailValidator}.

Lemma validate_on_submit_snd req f :
  App.is_submitted req = true ->
  snd (App.validate_on_submit req f) = snd (StudentForm.validate f).
Proof.
  intros Hs. unfold App.validate_on_submit. rewrite Hs.
  by destruct (StudentForm.validate f).
Qed.

(** *** The create view *)


Lemma serve_create_write_fails cfg fd e w :
  form_passes (StudentForm.new None fd) = true ->
  write_fails e = true ->
  App.serve cfg (post UrlIndex fd true) e w
  = (failure_page cfg "COMMIT", untouched w).
Proof.
  intros Hf Hw. erewrite serve_internal; cycle 1.
  { rewrite dispatch_post_index, index_eq. cbv zeta.
    rewrite is_submitted_post. unfold App.bind_form.
    rewrite is_submitted_post. cbn [post form csrf_valid andb].
    rewrite Hf, Hw. reflexivity. }
  reflexivity.
Qed.

Lemma serve_create_invalid cfg fd e w :
  form_passes (StudentForm.new None fd) = false ->
  read_fails e = false ->
  App.serve cfg (post UrlIndex fd true) e w
  = (render_template "index.html"
       [("form", CForm (snd (StudentForm.validate (StudentForm.new None fd))));
        ("students", CStudents (select_all (db w)))],
     untouched w).
Proof.
  intros Hf Hr. erewrite serve_ok; cycle 1.
  { rewrite dispatch_post_index, index_eq. cbv zeta.
    rewrite validate_on_submit_snd by done.
    rewrite is_submitted_post. unfold App.bind_form.
    rewrite is_submitted_post. cbn [post form csrf_valid andb].
    rewrite Hf, Hr. reflexivity. }
  reflexivity.
Qed.


(** *** The update view, on a record that exists *)

Lemma serve_update_ok cfg id r fd e w :
  db w !! id = Some r ->
  form_passes (StudentForm.new (Some r) fd) = true ->
  read_fails e = false -> write_fails e = false ->
  App.serve cfg (post (UrlUpdate id) fd true) e w
  = (redirect "/",
     mk_world (<[id := trimmed (StudentForm.new (Some r) fd)]> (db w))
              [] (flashes w ++ [update_notice])).
Proof.
  intros Hid Hf Hr Hw. erewrite serve_ok; cycle 1.
  { rewrite dispatch_post_update, update_eq, Hr.
    cbn [App.new_session db session flashes]. rewrite Hid. cbv zeta.
    rewrite is_submitted_post. unfold App.bind_form.
    rewrite is_submitted_post. cbn [post form csrf_valid andb app].
    rewrite Hf, Hw. unfold assignments.
    rewrite (flush_set _ _ r) by done. reflexivity. }
  by destruct (trimmed _).
Qed.

Lemma serve_update_invalid cfg id r fd e w :
  db w !! id = Some r ->
  form_passes (StudentForm.new (Some r) fd) = false ->
  read_fails e = false ->
  App.serve cfg (post (UrlUpdate id) fd true) e w
  = (render_template "update.html"
       [("form",
         CForm (snd (StudentForm.validate (StudentForm.new (Some r) fd))));
        ("student", CStudent (id, r))],
     untouched w).
Proof.
  intros Hid Hf Hr. erewrite serve_ok; cycle 1.
  { rewrite dispatch_post_update, update_eq, Hr.
    cbn [App.new_session db session flashes]. rewrite Hid. cbv zeta.
    rewrite validate_on_submit_snd by done.
    rewrite is_submitted_post. unfold App.bind_form.
    rewrite is_submitted_post. cbn [post form csrf_valid andb app].
    rewrite Hf. reflexivity. }
  reflexivity.
Qed.

Lemma serve_update_read_fails cfg id fd e w :
  read_fails e = true ->
  App.serve cfg (post (UrlUpdate id) fd true) e w
  = (failure_page cfg "SELECT * FROM student WHERE id = ?", untouched w).
Proof.
  intros Hr. erewrite serve_internal; cycle 1.
  { rewrite dispatch_post_update, update_eq, Hr. reflexivity. }
  reflexivity.
Qed.

Lemma serve_update_write_fails cfg id r fd e w :
  db w !! id = Some r ->
  form_passes (StudentForm.new (Some r) fd) = true ->
  read_fails e = false -> write_fails e = true ->
  App.serve cfg (post (UrlUpdate id) fd true) e w
  = (failure_page cfg "COMMIT", untouched w).
Proof.
  intros Hid Hf Hr Hw. erewrite serve_internal; cycle 1.
  { rewrite dispatch_post_update, update_eq, Hr.
    cbn [App.new_session db session flashes]. rewrite Hid. cbv zeta.
    rewrite is_submitted_post. unfold App.bind_form.
    rewrite is_submitted_post. cbn [post form csrf_valid andb app].
    rewrite Hf, Hw. reflexivity. }
  reflexivity.
Qed.

(** *** From the rules to the verdict of the form *)



End Forms.

(** ** Creation *)




(** The scenario of the specification: Ann Lee gets id 1 and is listed. *)
Example create_scenario :
  App.serve App.imported (post UrlIndex ann true) healthy App.initial
  = (redirect "/", ann_world)
  /\ select_all (db ann_world)
     = [(1, Student.mk (py "Ann") (py "Lee") (py "ann@x.com"))]
  /\ flashes ann_world = [success_notice].
Proof. by vm_compute. Qed.

(** ** Rejection *)

Section Violations.

Context `{EmailValidator}.

(** Under the pattern every character is a letter or a space, but for a
    newline in the last place. *)
Lemma re_letters_spaces_lookup s i c :
  re_letters_spaces s = true -> s !! i = Some c ->
  letter_or_space c = true \/ (c = newline /\ S i = List.length s).
Proof.
  intros [Hall|(t & -> & Hall)]%re_letters_spaces_inv Hi.
  - left. rewrite Forall_forall in Hall. apply Hall.
    eapply list_elem_of_lookup_2, Hi.
  - destruct (decide (i < List.length t)%nat) as [Hlt|Hge].
    + left. rewrite lookup_app_l in Hi by done.
      rewrite Forall_forall in Hall. apply Hall.
      eapply list_elem_of_lookup_2, Hi.
    + right. rewrite lookup_app_r in Hi by lia.
      destruct (i - List.length t)%nat as [|n] eqn:E; [|by destruct n].
      injection Hi as <-. rewrite length_app. simpl. split; [done|lia].
Qed.

Lemma name_violation_fails d : name_violation d -> name_passes d = false.
Proof.
  destruct d as [s|]; [|done]. unfold name_violation, name_passes.
  intros [Hb|[Hlen|[Hlen|(i & c & Hi & Hc & Hlast)]]].
  - by rewrite Hb.
  - apply Nat.leb_gt in Hlen. rewrite Hlen. by rewrite andb_false_r.
  - apply Nat.leb_gt in Hlen. rewrite Hlen. by rewrite !andb_false_r.
  - destruct (re_letters_spaces s) eqn:Hre; [|by rewrite andb_false_r].
    destruct (re_letters_spaces_lookup s i c Hre Hi) as [Hc'|Hc']; [|done].
    congruence.
Qed.

Lemma email_violation_fails d : email_violation d -> email_passes d = false.
Proof.
  destruct d as [s|]; [|done]. unfold email_violation, email_passes.
  intros [->| ->]; [done|]. by rewrite andb_false_r.
Qed.

(** The data of the create form is what was submitted. *)
Lemma new_data_none fd :
  data (StudentForm.fname (StudentForm.new None fd)) = StudentForm.fd_fname fd
  /\ data (StudentForm.lname (StudentForm.new None fd))
     = StudentForm.fd_lname fd
  /\ data (StudentForm.email (StudentForm.new None fd))
     = StudentForm.fd_email fd.
Proof. by destruct fd as [[a|] [b|] [c|]]. Qed.

Lemma violation_form_fails fd :
  name_violation (StudentForm.fd_fname fd)
  \/ name_violation (StudentForm.fd_lname fd)
  \/ email_violation (StudentForm.fd_email fd) ->
  form_passes (StudentForm.new None fd) = false.
Proof.
  unfold form_passes. destruct (new_data_none fd) as (-> & -> & ->).
  intros [Hv|[Hv|Hv]].
  - apply name_violation_fails in Hv. by rewrite Hv.
  - apply name_violation_fails in Hv. rewrite Hv. by rewrite andb_false_r.
  - apply email_violation_fails in Hv. rewrite Hv. by rewrite andb_false_r.
Qed.

End Violations.

(** C4, as the code has it.  Take a [POST /] with a valid CSRF token in
    which some field, as submitted, breaks a rule: a name that is missing,
    blank, shorter than 2 or longer than 50 characters, or has a character
    that is neither letter nor space elsewhere than as its final newline;
    an email that is missing, blank or refused by the validator.  The
    creation is rejected: the table and the notices are as before, and the
    answer is the index page with the form, which holds the values as
    entered and an error on every field that breaks a rule.  The same
    submission without a valid token is refused with 400 and changes
    nothing either. *)
Theorem invalid_create_rejected `{EmailValidator} cfg e w fd :
  read_fails e = false ->
  name_violation (StudentForm.fd_fname fd)
  \/ name_violation (StudentForm.fd_lname fd)
  \/ email_violation (StudentForm.fd_email fd) ->
  (exists f,
     App.serve cfg (post UrlIndex fd true) e w
     = (render_template "index.html"
          [("form", CForm f); ("students", CStudents (select_all (db w)))],
        untouched w)
     /\ data (StudentForm.fname f) = StudentForm.fd_fname fd
     /\ data (StudentForm.lname f) = StudentForm.fd_lname fd
     /\ data (StudentForm.email f) = StudentForm.fd_email fd
     /\ (name_violation (StudentForm.fd_fname fd)
         -> errors (StudentForm.fname f) <> [])
     /\ (name_violation (StudentForm.fd_lname fd)
         -> errors (StudentForm.lname f) <> [])
     /\ (email_violation (StudentForm.fd_email fd)
         -> errors (StudentForm.email f) <> []))
  /\ App.serve cfg (post UrlIndex fd false) e w
     = (mk_response 400 DefaultPage, untouched w).
Proof.
  intros Hr Hv. split; [|apply serve_post_no_token; by left].
  rewrite serve_create_invalid by auto using violation_form_fails.
  destruct (validate_spec (StudentForm.new None fd))
    as (f & -> & D1 & D2 & D3 & E1 & E2 & E3).
  exists f. cbn [snd].
  destruct (new_data_none fd) as (N1 & N2 & N3).
  rewrite N1 in D1, E1. rewrite N2 in D2, E2. rewrite N3 in D3, E3.
  split_and!; try done.
  - intros Hn%name_violation_fails He%E1. congruence.
  - intros Hn%name_violation_fails He%E2. congruence.
  - intros Hn%email_violation_fails He%E3. congruence.
Qed.

Lemma invalid_create_rejected_witness :
  let fd := filled (py "A1") (py "Lee") (py "not-an-email") in
  (exists f,
     App.serve App.imported (post UrlIndex fd true) healthy ann_world
     = (render_template "index.html"
          [("form", CForm f);
           ("students", CStudents (select_all (db ann_world)))],
        untouched ann_world)
     /\ data (StudentForm.fname f) = StudentForm.fd_fname fd
     /\ data (StudentForm.lname f) = StudentForm.fd_lname fd
     /\ data (StudentForm.email f) = StudentForm.fd_email fd
     /\ (name_violation (StudentForm.fd_fname fd)
         -> errors (StudentForm.fname f) <> [])
     /\ (name_violation (StudentForm.fd_lname fd)
         -> errors (StudentForm.lname f) <> [])
     /\ (email_violation (StudentForm.fd_email fd)
         -> errors (StudentForm.email f) <> []))
  /\ App.serve App.imported (post UrlIndex fd false) healthy ann_world
     = (mk_response 400 DefaultPage, untouched ann_world).
Proof.
  apply (invalid_create_rejected App.imported healthy ann_world
           (filled (py "A1") (py "Lee") (py "not-an-email")));
    [reflexivity|].
  right. right. right. vm_compute. reflexivity.
Defined.

(** A first name with a digit, submitted without a valid CSRF token: the
    answer is the plain 400 page, with no form, no error message and none
    of the values entered. *)
Lemma invalid_create_without_token :
  let fd := filled (py "A1") (py "Lee") (py "ann@x.com") in
  name_passes (StudentForm.fd_fname fd) = false
  /\ App.serve App.imported (post UrlIndex fd false) healthy App.initial
     = (mk_response 400 DefaultPage, App.initial).
Proof. by vm_compute. Qed.

(** The examples of the specification, with a valid token: each field at
    fault has its message, the values entered are on the form. *)
Example invalid_create_scenario :
  let fd := filled (py "A1") (py "Lee") (py "not-an-email") in
  App.serve App.imported (post UrlIndex fd true) healthy App.initial
  = (render_template "index.html"
       [("form",
         CForm (StudentForm.mk
                  (mk_field (Some (py "A1")) ["Only letters allowed"])
                  (mk_field (Some (py "Lee")) [])
                  (mk_field (Some (py "not-an-email"))
                            ["Invalid email format"])));
        ("students", CStudents [])],
     App.initial).
Proof. by vm_compute. Qed.

(** The pattern ends in [$], which also matches before a final newline: a
    name that ends in a newline passes the form, and is stored without
    it. *)
Example trailing_newline_accepted :
  let fd := filled (py "Ab" ++ [newline]) (py "Lee") (py "ann@x.com") in
  letter_or_space newline = false
  /\ fst (App.serve App.imported (post UrlIndex fd true) healthy App.initial)
     = redirect "/"
  /\ db (snd (App.serve App.imported (post UrlIndex fd true) healthy
                        App.initial)) !! 1
     = Some (Student.mk (py "Ab") (py "Lee") (py "ann@x.com")).
Proof. by vm_compute. Qed.

(** ** Update *)

Section Update.

Context `{EmailValidator}.

(** What the update form writes, by the submission and the record. *)
Lemma trimmed_update r fd :
  trimmed (StudentForm.new (Some r) fd)
  = Student.mk
      (strip (submitted (Student.fname r) (StudentForm.fd_fname fd)))
      (strip (submitted (Student.lname r) (StudentForm.fd_lname fd)))
      (strip (submitted (Student.email r) (StudentForm.fd_email fd))).
Proof. by destruct fd as [[a|] [b|] [c|]]. Qed.

Lemma form_passes_update r fd :
  form_passes (StudentForm.new (Some r) fd)
  = name_passes (Some (submitted (Student.fname r) (StudentForm.fd_fname fd)))
    && name_passes (Some (submitted (Student.lname r) (StudentForm.fd_lname fd)))
    && email_passes (Some (submitted (Student.email r) (StudentForm.fd_email fd))).
Proof. by destruct fd as [[a|] [b|] [c|]]. Qed.

End Update.

(** C7.  When a record has the id and a [POST /update/id] succeeds, that
    is, is answered with the redirect, then the submission carried a valid
    token and its three values passed the form, and the world it leaves is
    the one before with the three fields of that record replaced by the
    trimmed values and the update notice added.  The record keeps its id,
    every other record is as it was, and the ids in use are the same.  (A
    field the submission leaves out is bound to the value of the record.) *)
Theorem update_replaces_three_fields `{EmailValidator} cfg e w id r fd tok :
  db w !! id = Some r ->
  fst (App.serve cfg (post (UrlUpdate id) fd tok) e w) = redirect "/" ->
  let a := submitted (Student.fname r) (StudentForm.fd_fname fd) in
  let b := submitted (Student.lname r) (StudentForm.fd_lname fd) in
  let c := submitted (Student.email r) (StudentForm.fd_email fd) in
  let w' := snd (App.serve cfg (post (UrlUpdate id) fd tok) e w) in
  tok = true
  /\ name_passes (Some a) = true /\ name_passes (Some b) = true
  /\ email_passes (Some c) = true
  /\ w' = mk_world (<[id := Student.mk (strip a) (strip b) (strip c)]> (db w))
                   [] (flashes w ++ [update_notice])
  /\ db w' !! id = Some (Student.mk (strip a) (strip b) (strip c))
  /\ (forall k, k <> id -> db w' !! k = db w !! k)
  /\ dom (db w') = dom (db w).
Proof.
  intros Hid Hresp. cbv zeta.
  destruct tok.
  2: { rewrite serve_post_no_token in Hresp by (right; by exists id). done. }
  destruct (read_fails e) eqn:Hr.
  { rewrite serve_update_read_fails in Hresp by done.
    unfold failure_page in Hresp. by destruct (App.debug cfg). }
  destruct (form_passes (StudentForm.new (Some r) fd)) eqn:Hf.
  2: { by rewrite (serve_update_invalid cfg id r) in Hresp. }
  destruct (write_fails e) eqn:Hw.
  { rewrite (serve_update_write_fails cfg id r) in Hresp by done.
    unfold failure_page in Hresp. by destruct (App.debug cfg). }
  rewrite (serve_update_ok cfg id r) by done.
  rewrite trimmed_update. rewrite form_passes_update in Hf.
  apply andb_prop in Hf as [[Ha Hb]%andb_prop Hc].
  cbn [snd db]. split_and!; try done.
  - apply lookup_insert_eq.
  - intros k Hk. by apply lookup_insert_ne.
  - rewrite dom_insert_L. apply elem_of_dom_2 in Hid.
    apply subseteq_union_1_L. by apply singleton_subseteq_l.
Qed.

Lemma update_replaces_three_fields_witness :
  let fd := filled (py "Anne ") (py "Lee") (py "anne@x.com") in
  let r := Student.mk (py "Ann") (py "Lee") (py "ann@x.com") in
  let a := submitted (Student.fname r) (StudentForm.fd_fname fd) in
  let b := submitted (Student.lname r) (StudentForm.fd_lname fd) in
  let c := submitted (Student.email r) (StudentForm.fd_email fd) in
  let w' := snd (App.serve App.imported (post (UrlUpdate 1) fd true) healthy
                           ann_world) in
  true = true
  /\ name_passes (Some a) = true /\ name_passes (Some b) = true
  /\ email_passes (Some c) = true
  /\ w' = mk_world (<[1 := Student.mk (strip a) (strip b) (strip c)]>
                      (db ann_world))
                   [] (flashes ann_world ++ [update_notice])
  /\ db w' !! 1 = Some (Student.mk (strip a) (strip b) (strip c))
  /\ (forall k, k <> 1 -> db w' !! k = db ann_world !! k)
  /\ dom (db w') = dom (db ann_world).
Proof.
  apply (update_replaces_three_fields App.imported healthy ann_world 1
           (Student.mk (py "Ann") (py "Lee") (py "ann@x.com"))
           (filled (py "Anne ") (py "Lee") (py "anne@x.com")) true);
    reflexivity.
Defined.

(** The scenario of the specification: after the update the email of
    record 1 is the new one. *)
Example update_scenario :
  let fd := filled (py "Anne") (py "Lee") (py "anne@x.com") in
  let w' := snd (App.serve App.imported (post (UrlUpdate 1) fd true) healthy
                           ann_world) in
  db w' !! 1 = Some (Student.mk (py "Anne") (py "Lee") (py "anne@x.com")).
Proof. by vm_compute. Qed.

(** ** What is persisted *)

(** C1, at an input that breaks it.  The form checks the length of a name
    as submitted and the views store it trimmed: [POST /] with the first
    name ["A "] (two characters) passes [Length(min=2)] and persists ["A"],
    one character; the update view does the same.  The name persisted does
    not meet the rule of the data model, and the application's own form
    turns it down when it is submitted again as it is stored. *)
Theorem persisted_name_of_one_letter :
  let create := post UrlIndex (filled (py "A ") (py "Lee") (py "ann@x.com"))
                     true in
  let update := post (UrlUpdate 1)
                     (filled (py "Anne") (py " B") (py "ann@x.com")) true in
  let w1 := snd (App.serve App.imported create healthy App.initial) in
  let w2 := snd (App.serve App.imported update healthy ann_world) in
  fst (App.serve App.imported create healthy App.initial) = redirect "/"
  /\ db w1 !! 1 = Some (Student.mk (py "A") (py "Lee") (py "ann@x.com"))
  /\ name_rule (py "A") = false
  /\ name_passes (Some (py "A")) = false
  /\ fst (App.serve App.imported update healthy ann_world) = redirect "/"
  /\ db w2 !! 1 = Some (Student.mk (py "Anne") (py "B") (py "ann@x.com"))
  /\ name_rule (py "B") = false.
Proof. by vm_compute. Qed.

(** X6.  What does hold of every record the application has persisted: each name
    has 1 to 50 characters, letters and spaces only, and the email is not
    empty and is the trimmed form of an address the validator accepted. *)
Theorem persisted_records `{EmailValidator} cfg w id s :
  App.reachable cfg w -> db w !! id = Some s -> stored_ok s.
Proof. intros [_ Hok]%reachable_ok Hid. by apply (Hok id). Qed.

(** ** Internal failures *)

Section Failures.

Context `{EmailValidator}.

(** What the dispatch of a request can come to, from a world with an empty
    session: a response that is not a 500, an HTTP error other than 500
    with the world as it was, or another exception (of the database or of
    a library) with the table and the notices as they were. *)
Lemma view_outcome cfg req e w :
  session w = [] ->
  match App.view cfg req e w with
  | (Ok r, _) => status r <> 500
  | (Raise (HTTPException code), w') => code <> 500 /\ w' = w
  | (Raise _, w') => db w' = db w /\ flashes w' = flashes w
  end.
Proof.
  intros Hs. unfold App.view. destruct (path req) as [|id|id| |pwd|].
  - rewrite index_eq. cbv zeta.
    destruct (App.is_submitted req && _);
      [destruct (write_fails e)|destruct (read_fails e)]; done.
  - rewrite update_eq. destruct (read_fails e); [done|].
    destruct (db w !! id); [|by destruct (sqlite_integer id)]. cbv zeta.
    destruct (App.is_submitted req && _); [|done].
    by destruct (write_fails e).
  - rewrite delete_eq. destruct (read_fails e); [done|].
    destruct (db w !! id); [|by destruct (sqlite_integer id)].
    by destruct (write_fails e).
  - rewrite search_eq. destruct (args_email req) as [[|c s]|]; try done.
    destruct (read_fails e); [done|].
    destruct (select_by_email _ _); [done|].
    by destruct (App.rows_are_mappings cfg).
  - unfold_monad. destruct (negb (truthy pwd)); [done|].
    by destruct (App.bcrypt_rejects_long cfg && _).
  - done.
Qed.

Lemma dispatch_outcome cfg req e w :
  session w = [] ->
  match App.full_dispatch_request cfg req e w with
  | (Ok r, _) => status r <> 500
  | (Raise (HTTPException code), w') => code <> 500 /\ w' = w
  | (Raise _, w') => db w' = db w /\ flashes w' = flashes w
  end.
Proof.
  intros Hs. rewrite dispatch_eq.
  pose proof (view_outcome cfg req e w Hs) as Hv.
  destruct (path req); try done;
    destruct (bool_decide (method req ∈ _)); try done;
    destruct (App.is_submitted req && negb (csrf_valid req)); try done;
    destruct (bool_decide (method req = OPTIONS)); try done.
Qed.

(** X7.  Without the debugger, the answer to an internal failure is the 500
    template with an empty context, the same for every request, failure
    and table; the session is rolled back before the answer and the table
    and the notices are as before the request. *)
Theorem internal_failure_without_debugger cfg req e w :
  App.debug cfg = false ->
  session w = [] ->
  status (fst (App.wsgi_app cfg req e w)) = 500 ->
  App.wsgi_app cfg req e w = (page_500, w).
Proof.
  intros Hd Hs. pose proof (dispatch_outcome cfg req e w Hs) as Ho.
  destruct (App.full_dispatch_request cfg req e w) as [[r|x] w'] eqn:E.
  - rewrite (wsgi_app_ok _ _ _ _ _ _ E). by intros ?.
  - assert ((exists code, x = HTTPException code)
            \/ (forall code, x <> HTTPException code)) as [[code ->]|Hx]
      by (destruct x; eauto).
    + destruct Ho as [Hc ->]. destruct (N.eqb_spec code 404) as [->|Hne].
      * by rewrite (wsgi_app_not_found _ _ _ _ _ E).
      * rewrite (wsgi_app_http _ _ _ _ _ _ Hne E). by intros ?.
    + rewrite (wsgi_app_error cfg req e w w' x); [|done..].
      rewrite Hd. intros _.
      assert (db w' = db w /\ flashes w' = flashes w) as [-> ->]
        by (destruct x as [code| | | |]; [by destruct (Hx code)|done..]).
      rewrite <- Hs. by rewrite world_eta.
Qed.

(** X8.  Under the debugger a response of status 500 is the traceback of
    the exception that the request raised, whichever it is: the error of
    the database with its statement, or the [OverflowError], [TypeError]
    or [ValueError] of a library call.  It is never an HTTP error, and the
    table is as before the request. *)
Theorem internal_failure_with_debugger cfg req e w :
  App.debug cfg = true ->
  session w = [] ->
  status (fst (App.wsgi_app cfg req e w)) = 500 ->
  exists x,
    (forall code, x <> HTTPException code)
    /\ fst (App.full_dispatch_request cfg req e w) = Raise x
    /\ fst (App.wsgi_app cfg req e w) = mk_response 500 (Traceback x)
    /\ db (snd (App.wsgi_app cfg req e w)) = db w.
Proof.
  intros Hd Hs. pose proof (dispatch_outcome cfg req e w Hs) as Ho.
  destruct (App.full_dispatch_request cfg req e w) as [[r|x] w'] eqn:E.
  - rewrite (wsgi_app_ok _ _ _ _ _ _ E). by intros ?.
  - assert ((exists code, x = HTTPException code)
            \/ (forall code, x <> HTTPException code)) as [[code ->]|Hx]
      by (destruct x; eauto).
    + destruct Ho as [Hc ->]. destruct (N.eqb_spec code 404) as [->|Hne].
      * by rewrite (wsgi_app_not_found _ _ _ _ _ E).
      * rewrite (wsgi_app_http _ _ _ _ _ _ Hne E). by intros ?.
    + rewrite (wsgi_app_error cfg req e w w' x); [|done..].
      rewrite Hd. intros _. exists x. cbn [fst snd].
      split_and!; [done..|].
      destruct x as [code| | | |]; [by destruct (Hx code)|by destruct Ho..].
Qed.

End Failures.

(** C9, at an input that breaks it.  Started by its own entry point
    ([app.run(debug=True)]) the application does not call the handler of
    500: when the commit of a creation fails, the session is not rolled
    back by the time the response is made and the response is the traceback
    of the exception, statement included.  Imported without the debugger,
    the same request is answered by the 500 template with an empty context,
    the session rolled back.  The table is unchanged in both. *)
Theorem internal_failure_entry_point :
  let e := mk_env false true (fun pwd => pwd) in
  let req := post UrlIndex ann true in
  App.debug App.main = true
  /\ App.wsgi_app App.main req e App.initial
     = (mk_response 500 (Traceback (SQLAlchemyError "COMMIT")),
        mk_world ∅ [Add (Student.mk (py "Ann") (py "Lee") (py "ann@x.com"))]
                 [])
  /\ fst (App.serve App.main req e App.initial) <> page_500
  /\ App.wsgi_app App.imported req e App.initial = (page_500, App.initial)
  /\ db (snd (App.serve App.main req e App.initial)) = ∅.
Proof. by vm_compute. Qed.

(** ** The effect of a request *)

Section Effects.

Context `{EmailValidator}.

(** [decide_methods], in a hypothesis. *)
Local Ltac decide_methods_in E :=
  repeat match type of E with
  | context [bool_decide ?P] =>
      let b := eval vm_compute in (bool_decide P) in
      change (bool_decide P) with b in E
  end.

Lemma is_submitted_eq req :
  App.is_submitted req
  = match method req with POST | PUT | PATCH | DELETE => true | _ => false end.
Proof. unfold App.is_submitted. by destruct (method req). Qed.

(** Close a case in which the dispatch, known by [E], writes nothing. *)
Local Ltac no_effect cfg e w E :=
  first [ rewrite (serve_ok _ _ _ _ _ _ E)
        | rewrite (serve_not_found _ _ _ _ _ E)
        | rewrite (serve_http _ _ _ _ _ 405 ltac:(done) E)
        | rewrite (serve_http _ _ _ _ _ 400 ltac:(done) E)
        | rewrite (serve_internal _ _ _ _ _ _ E)
        | rewrite (serve_error _ _ _ _ _ OverflowError ltac:(done) E)
        | rewrite (serve_error _ _ _ _ _ TypeError ltac:(done) E)
        | rewrite (serve_error _ _ _ _ _ ValueError ltac:(done) E) ];
  refine (effect_none _ e w _ _); unfold error_page;
  by destruct (App.debug cfg).

Lemma serve_effect cfg req e w : effect req e w (App.serve cfg req e w).
Proof.
  pose proof (dispatch_eq cfg req e (App.new_session w)) as E.
  destruct req as [m u args fd tok]. 
  unfold App.view in E. rewrite is_submitted_eq in E.
  cbn [path method csrf_valid] in E.
  destruct u as [|id|id| |pwd|], m; cbn [App.rule_methods] in E;
    decide_methods_in E; cbn [andb negb] in E.
  all: try (no_effect cfg e w E).
  all: rewrite ?index_eq, ?update_eq, ?delete_eq, ?search_eq in E;
    cbv zeta in E; unfold App.bind_form in E; rewrite ?is_submitted_eq in E;
    cbn [method csrf_valid form args_email andb App.new_session db session
         flashes app] in E.
  all: try (unfold App.hash_password, App.bcrypt_generate_password_hash,
              mbind, M_bind, bind, mret, M_ret, ret in E;
            destruct (negb (truthy pwd));
            [|destruct (App.bcrypt_rejects_long cfg && _)];
            no_effect cfg e w E).
  all: destruct (read_fails e) eqn:Hr; try (no_effect cfg e w E).
  all: try (destruct (db w !! id) as [r|] eqn:Hid;
            [|destruct (sqlite_integer id)]; try (no_effect cfg e w E)).
  all: try (destruct args as [[|c s]|]; try (no_effect cfg e w E);
            destruct (select_by_email _ _); try (no_effect cfg e w E);
            destruct (App.rows_are_mappings cfg); no_effect cfg e w E).
  all: try (destruct tok; cbn [andb negb] in E; try (no_effect cfg e w E)).
  all: try (destruct (form_passes _) eqn:Hf; try (no_effect cfg e w E)).
  all: destruct (write_fails e) eqn:Hw; try (no_effect cfg e w E).
  all: try (unfold assignments in E; rewrite (flush_set _ _ r) in E by done).
  all: rewrite (serve_ok _ _ _ _ _ _ E).
  all: first [ by refine (effect_create _ e w _ _ _ _ _)
             | by refine (effect_update _ e w id r _ _ _ _ _ _ _)
             | refine (effect_delete _ e w id r _ _ _ _ _);
               cbn [method path]; by eauto ].
Qed.

End Effects.

(** X1.  A request that is neither a POST with a valid CSRF token to [/] or
    [/update/id] nor a GET or HEAD to [/delete/id] writes nothing, whatever
    its query string, its form and the state of the database: the table
    and the notices are as before, and the answer is not the redirect. *)
Theorem only_three_requests_write `{EmailValidator} cfg req e w :
  may_write req = false ->
  snd (App.serve cfg req e w) = untouched w
  /\ fst (App.serve cfg req e w) <> redirect "/".
Proof.
  intros Hreq.
  destruct (serve_effect cfg req e w)
    as [r Hr|Hm Hp Ht _ _|id r Hm Hp Ht _ _ _ _|id r Hm Hp _ _ _]; [done|..];
    unfold may_write in Hreq; rewrite Hp in Hreq.
  - rewrite Hm in Hreq. congruence.
  - rewrite Hm in Hreq. congruence.
  - by destruct Hm as [Hm|Hm]; rewrite Hm in Hreq.
Qed.

Lemma only_three_requests_write_witness :
  let req := mk_request GET (UrlUpdate 1) None ann true in
  snd (App.serve App.imported req healthy ann_world) = untouched ann_world
  /\ fst (App.serve App.imported req healthy ann_world) <> redirect "/".
Proof.
  apply (only_three_requests_write App.imported
           (mk_request GET (UrlUpdate 1) None ann true) healthy ann_world).
  reflexivity.
Defined.

(** X2.  The answer is the redirect exactly when a view has committed: then
    the session is empty and exactly one notice, that of the create, update
    or delete view, has been added after the ones there were.  Every other
    answer comes with the table and the notices as before the request. *)
Theorem redirect_means_committed `{EmailValidator} cfg req e w :
  (fst (App.serve cfg req e w) = redirect "/"
   /\ session (snd (App.serve cfg req e w)) = []
   /\ exists n,
        n ∈ [success_notice; update_notice; delete_notice]
        /\ flashes (snd (App.serve cfg req e w)) = flashes w ++ [n])
  \/ (fst (App.serve cfg req e w) <> redirect "/"
      /\ snd (App.serve cfg req e w) = untouched w).
Proof.
  destruct (serve_effect cfg req e w) as [r Hr| | |]; [by right|left..];
    (split; [done|split; [done|]]).
  - exists success_notice. split; [|done]. apply list_elem_of_here.
  - exists update_notice. split; [|done].
    apply list_elem_of_further, list_elem_of_here.
  - exists delete_notice. split; [|done].
    do 2 apply list_elem_of_further. apply list_elem_of_here.
Qed.

(** X3.  When the database refuses writes, no request leaves a trace: the
    table and the notices are as before (no success notice for a record
    that was not written) and the answer is not the redirect. *)
Theorem failed_write_leaves_no_trace `{EmailValidator} cfg req e w :
  write_fails e = true ->
  snd (App.serve cfg req e w) = untouched w
  /\ fst (App.serve cfg req e w) <> redirect "/".
Proof.
  intros Hw.
  destruct (serve_effect cfg req e w)
    as [r Hr|? ? ? ? Hw'|id r ? ? ? ? ? ? Hw'|id r ? ? ? ? Hw'];
    [done|congruence..].
Qed.

Lemma failed_write_leaves_no_trace_witness :
  let e := mk_env false true (fun pwd => pwd) in
  snd (App.serve App.imported (post UrlIndex ann true) e ann_world)
  = untouched ann_world
  /\ fst (App.serve App.imported (post UrlIndex ann true) e ann_world)
     <> redirect "/".
Proof.
  apply (failed_write_leaves_no_trace App.imported (post UrlIndex ann true)
           (mk_env false true (fun pwd => pwd)) ann_world).
  reflexivity.
Defined.

(** X4.  A POST without a valid CSRF token never reaches a view: it is
    refused with 400 on [/] and [/update/id], with 405 on the rules that
    have no POST, with the not-found page on an unmatched path; the world is
    as before, also when the database does not answer. *)
Theorem post_without_token_refused `{EmailValidator} cfg u args fd e w :
  App.serve cfg (mk_request POST u args fd false) e w
  = (match u with
     | UrlIndex | UrlUpdate _ => mk_response 400 DefaultPage
     | Unmatched => page_404
     | _ => mk_response 405 DefaultPage
     end, untouched w).
Proof.
  destruct u.
  - rewrite (serve_http cfg _ e w (App.new_session w) 400);
      [reflexivity|done|by rewrite dispatch_eq].
  - rewrite (serve_http cfg _ e w (App.new_session w) 400);
      [reflexivity|done|by rewrite dispatch_eq].
  - rewrite (serve_http cfg _ e w (App.new_session w) 405);
      [reflexivity|done|by rewrite dispatch_eq].
  - rewrite (serve_http cfg _ e w (App.new_session w) 405);
      [reflexivity|done|by rewrite dispatch_eq].
  - rewrite (serve_http cfg _ e w (App.new_session w) 405);
      [reflexivity|done|by rewrite dispatch_eq].
  - rewrite (serve_not_found cfg _ e w (App.new_session w));
      [reflexivity|by rewrite dispatch_eq].
Qed.

(** ** Persisted fields are trimmed *)

Section Trimmed.

Context `{EmailValidator}.

Lemma lstrip_head s c t : lstrip s = c :: t -> isspace c = false.
Proof.
  induction s as [|x s IH]; simpl; [done|].
  destruct (isspace x) eqn:Ex; [done|]. by intros [= <- _].
Qed.

Lemma lstrip_fixed s :
  (forall c t, s = c :: t -> isspace c = false) -> lstrip s = s.
Proof.
  destruct s as [|c t]; [done|]. intros Hc. simpl.
  by rewrite (Hc c t eq_refl).
Qed.

Lemma lstrip_lstrip s : lstrip (lstrip s) = lstrip s.
Proof. apply lstrip_fixed. intros c t. apply lstrip_head. Qed.

Lemma rstrip_rstrip s : rstrip (rstrip s) = rstrip s.
Proof. unfold rstrip. by rewrite rev_involutive, lstrip_lstrip. Qed.

Lemma lstrip_rstrip s :
  (forall c t, s = c :: t -> isspace c = false) ->
  lstrip (rstrip s) = rstrip s.
Proof.
  intros Hc. apply lstrip_fixed. intros c t Hr.
  destruct (rstrip_prefix s) as [q Hq]. rewrite Hr in Hq.
  by apply (Hc c (t ++ q)).
Qed.

(** Trimming twice is trimming once. *)
Lemma strip_strip s : strip (strip s) = strip s.
Proof.
  unfold strip. rewrite lstrip_rstrip.
  - apply rstrip_rstrip.
  - intros c t. apply lstrip_head.
Qed.

Lemma db_step_trimmed t t' :
  (forall id s, t !! id = Some s ->
     is_trimmed (Student.fname s) /\ is_trimmed (Student.lname s)
     /\ is_trimmed (Student.email s)) ->
  db_step t t' ->
  forall id s, t' !! id = Some s ->
    is_trimmed (Student.fname s) /\ is_trimmed (Student.lname s)
    /\ is_trimmed (Student.email s).
Proof.
  intros Hok [|a b c _ _ _|k r a b c _ _ _ _|k r _]; [done|..]; intros id s.
  - destruct (decide (id = next_id t)) as [->|Hne].
    + rewrite lookup_insert_eq. intros [= <-]. unfold is_trimmed.
      cbn [Student.fname Student.lname Student.email].
      by rewrite !strip_strip.
    + rewrite lookup_insert_ne by done. apply Hok.
  - destruct (decide (id = k)) as [->|Hne].
    + rewrite lookup_insert_eq. intros [= <-]. unfold is_trimmed.
      cbn [Student.fname Student.lname Student.email].
      by rewrite !strip_strip.
    + rewrite lookup_insert_ne by done. apply Hok.
  - destruct (decide (id = k)) as [->|Hne].
    + by rewrite lookup_delete_eq.
    + rewrite lookup_delete_ne by done. apply Hok.
Qed.

End Trimmed.

(** X5.  Every field of every record the application has persisted is
    stored trimmed: trimming it again changes nothing, so no stored name or
    email begins or ends with whitespace. *)
Theorem persisted_fields_trimmed `{EmailValidator} cfg w id s :
  App.reachable cfg w ->
  db w !! id = Some s ->
  is_trimmed (Student.fname s) /\ is_trimmed (Student.lname s)
  /\ is_trimmed (Student.email s).
Proof.
  intros Hw. revert id s. induction Hw as [|w req e _ IH].
  - intros id s. unfold App.initial. cbn [db]. by rewrite lookup_empty.
  - destruct (serve_step cfg req e w) as [_ Hstep].
    by apply (db_step_trimmed (db w)).
Qed.

Lemma persisted_fields_trimmed_witness :
  let s := Student.mk (py "Ann") (py "Lee") (py "ann@x.com") in
  is_trimmed (Student.fname s) /\ is_trimmed (Student.lname s)
  /\ is_trimmed (Student.email s).
Proof.
  apply (persisted_fields_trimmed App.imported ann_world 1
           (Student.mk (py "Ann") (py "Lee") (py "ann@x.com")));
    [apply App.reachable_serve, App.reachable_initial | reflexivity].
Defined.

Lemma persisted_records_witness :
  stored_ok (Student.mk (py "Ann") (py "Lee") (py "ann@x.com")).
Proof.
  apply (persisted_records App.imported ann_world 1
           (Student.mk (py "Ann") (py "Lee") (py "ann@x.com")));
    [apply App.reachable_serve, App.reachable_initial | reflexivity].
Defined.

Lemma internal_failure_without_debugger_witness :
  App.wsgi_app App.imported (post UrlIndex ann true)
               (mk_env false true (fun pwd => pwd)) ann_world
  = (page_500, ann_world).
Proof.
  apply (internal_failure_without_debugger App.imported
           (post UrlIndex ann true) (mk_env false true (fun pwd => pwd))
           ann_world); reflexivity.
Defined.

Lemma internal_failure_with_debugger_witness :
  let req := get_search (Some (py "ann@x.com")) in
  exists x,
    (forall code, x <> HTTPException code)
    /\ fst (App.full_dispatch_request App.main req healthy ann_world) = Raise x
    /\ fst (App.wsgi_app App.main req healthy ann_world)
       = mk_response 500 (Traceback x)
    /\ db (snd (App.wsgi_app App.main req healthy ann_world)) = db ann_world.
Proof.
  apply (internal_failure_with_debugger App.main
           (get_search (Some (py "ann@x.com"))) healthy ann_world);
    reflexivity.
Defined.

(** ** More of the update and index views *)

Section UpdateForm.

Context `{EmailValidator}.

(** The data of the update form: what was submitted, else the record's. *)
Lemma new_data_some r fd :
  data (StudentForm.fname (StudentForm.new (Some r) fd))
  = Some (submitted (Student.fname r) (StudentForm.fd_fname fd))
  /\ data (StudentForm.lname (StudentForm.new (Some r) fd))
     = Some (submitted (Student.lname r) (StudentForm.fd_lname fd))
  /\ data (StudentForm.email (StudentForm.new (Some r) fd))
     = Some (submitted (Student.email r) (StudentForm.fd_email fd)).
Proof. by destruct fd as [[a|] [b|] [c|]]. Qed.

(** A request that is not a submission reaches the views with the form
    unbound, whatever body it carries. *)
Lemma dispatch_get_any cfg u args fd tok e w :
  u <> Unmatched ->
  App.full_dispatch_request cfg (mk_request GET u args fd tok) e w
  = App.view cfg (mk_request GET u args fd tok) e w.
Proof. intros Hu. rewrite dispatch_eq. by destruct u. Qed.

End UpdateForm.

(** X9.  A [POST /update/id] with a valid CSRF token on a record that
    exists, in which some field breaks a rule (a field left out of the
    submission counts with the value of the record), changes nothing: the
    answer is the update page with the record as it is and the form, which
    holds the values entered and an error on every field at fault. *)
Theorem invalid_update_rejected `{EmailValidator} cfg e w id r fd :
  db w !! id = Some r ->
  read_fails e = false ->
  let a := submitted (Student.fname r) (StudentForm.fd_fname fd) in
  let b := submitted (Student.lname r) (StudentForm.fd_lname fd) in
  let c := submitted (Student.email r) (StudentForm.fd_email fd) in
  name_violation (Some a) \/ name_violation (Some b)
  \/ email_violation (Some c) ->
  exists f,
    App.serve cfg (post (UrlUpdate id) fd true) e w
    = (render_template "update.html"
         [("form", CForm f); ("student", CStudent (id, r))],
       untouched w)
    /\ data (StudentForm.fname f) = Some a
    /\ data (StudentForm.lname f) = Some b
    /\ data (StudentForm.email f) = Some c
    /\ (name_violation (Some a) -> errors (StudentForm.fname f) <> [])
    /\ (name_violation (Some b) -> errors (StudentForm.lname f) <> [])
    /\ (email_violation (Some c) -> errors (StudentForm.email f) <> []).
Proof.
  intros Hid Hr a b c Hv.
  assert (Hf : form_passes (StudentForm.new (Some r) fd) = false).
  { rewrite form_passes_update. fold a b c. destruct Hv as [Hv|[Hv|Hv]].
    - apply name_violation_fails in Hv. by rewrite Hv.
    - apply name_violation_fails in Hv. rewrite Hv. by rewrite andb_false_r.
    - apply email_violation_fails in Hv. rewrite Hv. by rewrite andb_false_r. }
  rewrite (serve_update_invalid cfg id r) by done.
  destruct (validate_spec (StudentForm.new (Some r) fd))
    as (f & -> & D1 & D2 & D3 & E1 & E2 & E3).
  destruct (new_data_some r fd) as (N1 & N2 & N3).
  rewrite N1 in D1, E1. rewrite N2 in D2, E2. rewrite N3 in D3, E3.
  exists f. cbn [snd]. split_and!; try done.
  - intros Hn%name_violation_fails He%E1. unfold a in Hn. congruence.
  - intros Hn%name_violation_fails He%E2. unfold b in Hn. congruence.
  - intros Hn%email_violation_fails He%E3. unfold c in Hn. congruence.
Qed.

Lemma invalid_update_rejected_witness :
  let r := Student.mk (py "Ann") (py "Lee") (py "ann@x.com") in
  let fd := StudentForm.mk_formdata (Some (py "Anne")) None
                                    (Some (py "not-an-email")) in
  let a := submitted (Student.fname r) (StudentForm.fd_fname fd) in
  let b := submitted (Student.lname r) (StudentForm.fd_lname fd) in
  let c := submitted (Student.email r) (StudentForm.fd_email fd) in
  exists f,
    App.serve App.imported (post (UrlUpdate 1) fd true) healthy ann_world
    = (render_template "update.html"
         [("form", CForm f); ("student", CStudent (1, r))],
       untouched ann_world)
    /\ data (StudentForm.fname f) = Some a
    /\ data (StudentForm.lname f) = Some b
    /\ data (StudentForm.email f) = Some c
    /\ (name_violation (Some a) -> errors (StudentForm.fname f) <> [])
    /\ (name_violation (Some b) -> errors (StudentForm.lname f) <> [])
    /\ (email_violation (Some c) -> errors (StudentForm.email f) <> []).
Proof.
  apply (invalid_update_rejected App.imported healthy ann_world 1
           (Student.mk (py "Ann") (py "Lee") (py "ann@x.com"))
           (StudentForm.mk_formdata (Some (py "Anne")) None
                                    (Some (py "not-an-email"))));
    [reflexivity|reflexivity|].
  right. right. right. vm_compute. reflexivity.
Defined.

(** X10.  [GET /update/id] on a record that exists answers with the update
    page: the form holds the three values of the record and no error, the
    record is handed to the template, nothing changes.  The query string,
    a body and a token the request may carry play no part. *)
Theorem update_form_prefilled `{EmailValidator} cfg e w id r args fd tok :
  db w !! id = Some r ->
  read_fails e = false ->
  App.serve cfg (mk_request GET (UrlUpdate id) args fd tok) e w
  = (render_template "update.html"
       [("form",
         CForm (StudentForm.mk (mk_field (Some (Student.fname r)) [])
                               (mk_field (Some (Student.lname r)) [])
                               (mk_field (Some (Student.email r)) [])));
        ("student", CStudent (id, r))],
     untouched w).
Proof.
  intros Hid Hr.
  rewrite (serve_ok cfg _ e w
             (render_template "update.html"
                [("form",
                  CForm (StudentForm.mk (mk_field (Some (Student.fname r)) [])
                           (mk_field (Some (Student.lname r)) [])
                           (mk_field (Some (Student.email r)) [])));
                 ("student", CStudent (id, r))])
             (App.new_session w)); [reflexivity|].
  rewrite dispatch_get_any by done. unfold App.view. cbn [path].
  rewrite update_eq, Hr. cbn [App.new_session db]. by rewrite Hid.
Qed.

Lemma update_form_prefilled_witness :
  let r := Student.mk (py "Ann") (py "Lee") (py "ann@x.com") in
  App.serve App.imported (mk_request GET (UrlUpdate 1) (Some (py "x")) ann true)
            healthy ann_world
  = (render_template "update.html"
       [("form",
         CForm (StudentForm.mk (mk_field (Some (Student.fname r)) [])
                               (mk_field (Some (Student.lname r)) [])
                               (mk_field (Some (Student.email r)) [])));
        ("student", CStudent (1, r))],
     untouched ann_world).
Proof.
  apply (update_form_prefilled App.imported healthy ann_world 1
           (Student.mk (py "Ann") (py "Lee") (py "ann@x.com"))
           (Some (py "x")) ann true); reflexivity.
Defined.

(** X11.  [GET /] answers with the index page: an empty form without errors
    and the listing, which holds every record of the table with its id,
    each once, and nothing else; nothing changes.  The query string, a body
    and a token the request may carry play no part. *)
Theorem index_lists_every_record `{EmailValidator} cfg e w args fd tok :
  read_fails e = false ->
  exists l,
    App.serve cfg (mk_request GET UrlIndex args fd tok) e w
    = (render_template "index.html"
         [("form",
           CForm (StudentForm.mk (mk_field None []) (mk_field None [])
                                 (mk_field None [])));
          ("students", CStudents l)],
       untouched w)
    /\ NoDup l
    /\ (forall id s, (id, s) ∈ l <-> db w !! id = Some s)
    /\ List.length l = size (db w).
Proof.
  intros Hr. exists (select_all (db w)). split_and!.
  - rewrite (serve_ok cfg _ e w
               (render_template "index.html"
                  [("form",
                    CForm (StudentForm.mk (mk_field None []) (mk_field None [])
                                          (mk_field None [])));
                   ("students", CStudents (select_all (db w)))])
               (App.new_session w)); [reflexivity|].
    rewrite dispatch_get_any by done. unfold App.view. cbn [path].
    rewrite index_eq. cbv zeta. by rewrite Hr.
  - apply select_all_NoDup.
  - intros id s. apply select_all_spec.
  - apply select_all_length.
Qed.

Lemma index_lists_every_record_witness :
  exists l,
    App.serve App.imported (mk_request GET UrlIndex None ann false) healthy
              ann_world
    = (render_template "index.html"
         [("form",
           CForm (StudentForm.mk (mk_field None []) (mk_field None [])
                                 (mk_field None [])));
          ("students", CStudents l)],
       untouched ann_world)
    /\ NoDup l
    /\ (forall id s, (id, s) ∈ l <-> db ann_world !! id = Some s)
    /\ List.length l = size (db ann_world).
Proof.
  apply (index_lists_every_record App.imported healthy ann_world None ann
           false); reflexivity.
Defined.

(** ** How requests compose *)

Section Compose.

Context `{EmailValidator}.


(** An update that is answered with the redirect had a valid token, a
    record to work on, a form that passed and a database that answered. *)
Lemma update_redirect_inv cfg id fd tok e w :
  fst (App.serve cfg (post (UrlUpdate id) fd tok) e w) = redirect "/" ->
  exists r,
    tok = true /\ db w !! id = Some r
    /\ form_passes (StudentForm.new (Some r) fd) = true
    /\ read_fails e = false /\ write_fails e = false.
Proof.
  intros Hresp.
  pose proof (serve_effect cfg (post (UrlUpdate id) fd tok) e w) as He.
  destruct (App.serve cfg (post (UrlUpdate id) fd tok) e w) as [r w'].
  cbn [fst] in Hresp. subst r.
  inversion He as [r Hr|Hm Hp|id' r Hm Hp Ht Hid Hf Hr Hw|id' r Hm Hp]; subst;
    [done|discriminate Hp| |discriminate Hp].
  injection Hp as <-. by exists r.
Qed.




End Compose.



(** X13.  Updating twice with the same complete submission is updating
    once: when a [POST /update/id] that carries all three fields is answered
    with the redirect, the same request sent again is answered with the
    redirect and leaves the table as the first one left it. *)
Theorem update_twice_is_once `{EmailValidator} cfg e w id a b c tok :
  fst (App.serve cfg (post (UrlUpdate id) (filled a b c) tok) e w)
  = redirect "/" ->
  let w1 := snd (App.serve cfg (post (UrlUpdate id) (filled a b c) tok) e w) in
  fst (App.serve cfg (post (UrlUpdate id) (filled a b c) tok) e w1)
  = redirect "/"
  /\ db (snd (App.serve cfg (post (UrlUpdate id) (filled a b c) tok) e w1))
     = db w1.
Proof.
  intros (r & -> & Hid & Hf & Hr & Hw)%update_redirect_inv. cbv zeta.
  rewrite (serve_update_ok cfg id r (filled a b c) e w) by done. cbn [snd].
  rewrite (serve_update_ok cfg id (trimmed (StudentForm.new (Some r)
                                               (filled a b c))));
    [|apply lookup_insert_eq|exact Hf|done|done].
  cbn [fst snd db]. split; [done|]. by rewrite insert_insert_eq.
Qed.

Lemma update_twice_is_once_witness :
  let req := post (UrlUpdate 1)
                  (filled (py "Anne ") (py "Lee") (py "anne@x.com")) true in
  let w1 := snd (App.serve App.imported req healthy ann_world) in
  fst (App.serve App.imported req healthy w1) = redirect "/"
  /\ db (snd (App.serve App.imported req healthy w1)) = db w1.
Proof.
  apply (update_twice_is_once App.imported healthy ann_world 1
           (py "Anne ") (py "Lee") (py "anne@x.com") true); reflexivity.
Defined.



(** ** The remaining routes and the messages of the form *)

(** X16.  A request whose path no rule matches is answered with the page of
    the 404 handler, the template with an empty context and status 404,
    whatever its method, query string, body and token; the world is as
    before, also when the database does not answer. *)
Theorem unmatched_path_not_found `{EmailValidator} cfg m args fd tok e w :
  App.serve cfg (mk_request m Unmatched args fd tok) e w
  = (mk_response 404 (Template "404.html" []), untouched w).
Proof.
  rewrite (serve_not_found cfg _ e w (App.new_session w)); [reflexivity|].
  by rewrite dispatch_eq.
Qed.

(** X17.  A request with a method that the rule of its path does not list
    (PUT, PATCH and DELETE everywhere, POST on the delete, search and hash
    rules) is answered 405 before the CSRF check and before any view: with
    or without token, the world is as before. *)
Theorem method_not_allowed `{EmailValidator} cfg m u args fd tok e w :
  u <> Unmatched ->
  bool_decide (m ∈ App.rule_methods u) = false ->
  App.serve cfg (mk_request m u args fd tok) e w
  = (mk_response 405 DefaultPage, untouched w).
Proof.
  intros Hu Hm.
  rewrite (serve_http cfg _ e w (App.new_session w) 405);
    [reflexivity|done|].
  rewrite dispatch_eq. cbn [path method]. rewrite Hm. by destruct u.
Qed.

Lemma method_not_allowed_witness :
  App.serve App.imported (mk_request PUT (UrlUpdate 1) None ann true) healthy
            ann_world
  = (mk_response 405 DefaultPage, untouched ann_world).
Proof.
  apply (method_not_allowed App.imported PUT (UrlUpdate 1) None ann true
           healthy ann_world); [discriminate|reflexivity].
Defined.

(** X18.  The messages a field ends up with, whatever errors it had before.
    A name that is missing or blank has the one message of [DataRequired]
    and no other; a name that is not blank has the length message when its
    length as submitted is outside 2 to 50, then ["Only letters allowed"]
    when the pattern does not match, and nothing else.  An email that is
    missing or blank has the message of [DataRequired]; one that is not
    blank has ["Invalid email format"] exactly when the validator refuses
    it. *)
Theorem field_messages `{EmailValidator} (d : option pystr) es :
  let required := ["This field is required."] in
  let name_messages :=
    match d with
    | None => required
    | Some s =>
        if not_blank s then
          (if (2 <=? List.length s)%nat && (List.length s <=? 50)%nat then []
           else ["Field must be between 2 and 50 characters long."])
          ++ (if re_letters_spaces s then [] else ["Only letters allowed"])
        else required
    end in
  errors (validate_field StudentForm.fname_validators (mk_field d es))
  = name_messages
  /\ errors (validate_field StudentForm.lname_validators (mk_field d es))
     = name_messages
  /\ errors (validate_field StudentForm.email_validators (mk_field d es))
     = match d with
       | None => required
       | Some s =>
           if not_blank s then
             if validate_email s then [] else ["Invalid email format"]
           else required
       end.
Proof.
  cbv zeta. destruct d as [s|]; [|by split_and!].
  unfold StudentForm.lname_validators.
  cbv beta iota zeta delta
    [data errors default run_validation_chain DataRequired Length Regexp Email
     validate_field StudentForm.fname_validators
     StudentForm.email_validators id].
  rewrite DataRequired_passes.
  destruct (not_blank s); [cbv beta iota zeta|by split_and!].
  generalize ((2 <=? List.length s)%nat && (List.length s <=? 50)%nat).
  intros in_range.
  destruct in_range; cbv beta iota zeta;
    destruct (re_letters_spaces s), (validate_email s); by split_and!.
Qed.

Section Newline.

Context `{EmailValidator}.

Lemma re_letters_spaces_newline t :
  forallb letter_or_space t = true ->
  re_letters_spaces (t ++ [newline]) = true.
Proof.
  induction t as [|c t IH]; [done|].
  simpl. intros [Hc Ht]%andb_prop. specialize (IH Ht).
  destruct (t ++ [newline]) as [|x l] eqn:E; [by destruct t|].
  by rewrite Hc.
Qed.

End Newline.

(** X19.  The pattern of the name fields lets one final newline through: a
    name of 1 to 49 letters and spaces, not blank, followed by a newline
    passes the three validators although the newline is neither letter nor
    space, and what the views store for it is the name trimmed, without the
    newline. *)
Theorem final_newline_passes `{EmailValidator} t :
  forallb letter_or_space t = true ->
  not_blank t = true ->
  (1 <= List.length t <= 49)%nat ->
  letter_or_space newline = false
  /\ name_passes (Some (t ++ [newline])) = true
  /\ strip (t ++ [newline]) = strip t.
Proof.
  intros Ht Hb [Hmin Hmax]. split; [done|].
  assert (Hs : strip (t ++ [newline]) = strip t)
    by (by apply strip_snoc_space).
  split; [|done].
  unfold name_passes, not_blank. rewrite Hs. fold (not_blank t). rewrite Hb.
  rewrite (re_letters_spaces_newline t Ht), length_app. cbn [List.length].
  rewrite andb_true_r. cbn [andb].
  apply andb_true_intro. split; apply Nat.leb_le; lia.
Qed.

Lemma final_newline_passes_witness :
  letter_or_space newline = false
  /\ name_passes (Some (py "Ab" ++ [newline])) = true
  /\ strip (py "Ab" ++ [newline]) = strip (py "Ab").
Proof.
  apply (final_newline_passes (py "Ab")); [reflexivity|reflexivity|].
  vm_compute. lia.
Defined.
